(** * MetaGPT GitHub providers: a shallow embedding

    The two provider adapters of [metagpt/provider/github_api.py] (class
    [GitHubLLM], a wrapper of the Sydney search-assistant client) and
    [metagpt/provider/github_copilot_api.py] (class [GitHubCopilotLLM], a
    wrapper of LiteLLM's [acompletion]) are translated method by method.

    - Python objects that are mutated in place (the [LLMConfig] handed to a
      constructor, the [litellm] module settings, the log sinks) live in an
      explicit world state that every method threads.
    - A method is a computation in a state-and-exception monad: it yields
      either [Return v] or [Raise e], together with the world it leaves.
    - Collaborators whose code is not part of the two files (the completion
      client, the token counters, the static token-limit table, the Sydney
      client, the cost manager) are members of a type class; the general
      theorems hold for an arbitrary instance, the examples run on the
      instances of [Demo]. *)

From Stdlib Require Import ZArith String Ascii.
From Stdlib Require Import Floats.PrimFloat.
From stdpp Require Import base strings gmap list.

Open Scope string_scope.
Open Scope list_scope.
Open Scope Z_scope.

(** ** Python preliminaries *)

Module Py.

(** Instances of Python's [Exception] class, by class, with their message. *)
Inductive exn : Type :=
| ImportError (msg : string)
| ValueError (msg : string)
| NameError (msg : string)
| AttributeError (msg : string)
| KeyError (key : string)
| IndexError (msg : string)
| TypeError (msg : string)
| UpstreamError (msg : string).

(** [c in s] for a character [c] *)
Fixpoint contains (c : ascii) (s : string) : bool :=
  match s with
  | EmptyString => false
  | String d rest => if Ascii.eqb c d then true else contains c rest
  end.

Definition hex_digit (n : nat) : ascii :=
  nth n (list_ascii_of_string "0123456789abcdef") "0"%char.

Definition double_quote : ascii := ascii_of_nat 34.

(** One character of [repr(s)], the string being quoted with [quote]:
    the quote and the backslash are escaped, so are the control characters;
    a byte above 127 belongs to a non-ASCII character, taken to be
    printable, and stays. *)
Definition repr_char (quote c : ascii) : string :=
  let n := nat_of_ascii c in
  if Ascii.eqb c quote || Ascii.eqb c "\"%char then String "\" (String c "")
  else if Nat.eqb n 9 then "\t"
  else if Nat.eqb n 10 then "\n"
  else if Nat.eqb n 13 then "\r"
  else if Nat.ltb n 32 || Nat.eqb n 127
       then String "\" (String "x" (String (hex_digit (n / 16))
                                       (String (hex_digit (n mod 16)) "")))
  else String c "".

Fixpoint repr_chars (quote : ascii) (s : string) : string :=
  match s with
  | EmptyString => EmptyString
  | String c rest => repr_char quote c +:+ repr_chars quote rest
  end.

(** [repr(s)] of a [str]: in single quotes, or in double quotes when the
    string has a single quote and no double one. *)
Definition repr (s : string) : string :=
  let quote :=
    if contains "'" s && negb (contains double_quote s) then double_quote
    else "'"%char in
  String quote (repr_chars quote s +:+ String quote "").

(** [str(e)]: the message the exception was made with; a [KeyError] is made
    with the key and prints its [repr]. *)
Definition str (e : exn) : string :=
  match e with
  | ImportError m | ValueError m | NameError m | AttributeError m
  | IndexError m | TypeError m | UpstreamError m => m
  | KeyError key => repr key
  end.

Inductive outcome (A : Type) : Type :=
| Return (a : A)
| Raise (e : exn).
Arguments Return {A} a.
Arguments Raise {A} e.

(** A method running over a world [W]. The world is kept when an exception
    is raised: what was written before the [raise] stays written. *)
Definition M (W A : Type) : Type := W → outcome A * W.

Definition ret {W A} (a : A) : M W A := λ w, (Return a, w).

Definition bind {W A B} (m : M W A) (k : A → M W B) : M W B :=
  λ w, match m w with
       | (Return a, w') => k a w'
       | (Raise e, w') => (Raise e, w')
       end.

Definition raise {W A} (e : exn) : M W A := λ w, (Raise e, w).

(** [try: body  except Exception as e: handler e] in a synchronous method:
    nothing is awaited in [body], and what it raises is an [exn]. *)
Definition try_except {W A} (body : M W A) (handler : exn → M W A) : M W A :=
  λ w, match body w with
       | (Return a, w') => (Return a, w')
       | (Raise e, w') => handler e w'
       end.

(** Lifting of a collaborator's answer into a method. *)
Definition call {W A} (r : outcome A) : M W A := λ w, (r, w).

Definition gets {W A} (f : W → A) : M W A := λ w, (Return (f w), w).
Definition modify {W} (f : W → W) : M W unit := λ w, (Return (), f w).

(** *** Coroutines *)

(** The exceptions outside [Exception]: [asyncio.CancelledError], which
    reaches a coroutine where it awaits, and the others an awaited call may
    raise. No [except Exception] clause catches them. *)
Inductive base_exception : Type :=
| CancelledError (msg : string)
| KeyboardInterrupt
| SystemExit (code : Z)
| GeneratorExit.

(** What an [await] hands back: what a synchronous call would, or an
    exception outside [Exception]. *)
Inductive result (A : Type) : Type :=
| Done (o : outcome A)
| Interrupted (b : base_exception).
Arguments Done {A} o.
Arguments Interrupted {A} b.

(** How an asynchronous iteration may end other than by exhaustion. *)
Inductive raised : Type :=
| Exception (e : exn)
| BaseException (b : base_exception).

(** An [async def] method running over a world [W]. *)
Definition Coro (W A : Type) : Type := W → result A * W.

Definition coro_ret {W A} (a : A) : Coro W A := λ w, (Done (Return a), w).

Definition coro_bind {W A B} (m : Coro W A) (k : A → Coro W B) : Coro W B :=
  λ w, match m w with
       | (Done (Return a), w') => k a w'
       | (Done (Raise e), w') => (Done (Raise e), w')
       | (Interrupted b, w') => (Interrupted b, w')
       end.

(** A synchronous call made from a coroutine. *)
Definition lift {W A} (m : M W A) : Coro W A :=
  λ w, let '(o, w') := m w in (Done o, w').

(** [await] of a collaborator's coroutine. *)
Definition await {W A} (r : result A) : Coro W A := λ w, (r, w).

(** [raise] of what an iteration ended with. *)
Definition reraise {W A} (r : raised) : Coro W A :=
  λ w, match r with
       | Exception e => (Done (Raise e), w)
       | BaseException b => (Interrupted b, w)
       end.

(** [try: body  except Exception as e: handler e] in a coroutine: the
    handler gets the [Exception] instances; a cancellation, as every
    exception outside [Exception], passes it by. *)
Definition try_except_Exception {W A} (body : Coro W A) (handler : exn → Coro W A)
    : Coro W A :=
  λ w, match body w with
       | (Done (Raise e), w') => handler e w'
       | (Done (Return a), w') => (Done (Return a), w')
       | (Interrupted b, w') => (Interrupted b, w')
       end.

(** Resolution of a global name at the time it is used: the module's own
    global namespace is searched (no builtin is called [logger]). *)
Definition load_global {W} (globals : list string) (name : string) : M W unit :=
  if decide (name ∈ globals) then ret ()
  else raise (NameError ("name '" +:+ name +:+ "' is not defined")).

(** *** Strings *)

(** [s.startswith(prefix)] *)
Definition startswith (s prefix : string) : bool := String.prefix prefix s.

(** [s[n:]] *)
Fixpoint slice_from (n : nat) (s : string) : string :=
  match n, s with
  | O, _ => s
  | S _, EmptyString => EmptyString
  | S k, String _ rest => slice_from k rest
  end.

(** [s.replace(old, new)] for a non-empty [old]: one scan from the left,
    every occurrence found is replaced and the scan resumes after it
    ([skip] counts the characters of the occurrence still to pass). *)
Fixpoint replace_scan (old new : string) (skip : nat) (s : string) : string :=
  match s with
  | EmptyString => EmptyString
  | String c rest =>
      match skip with
      | S k => replace_scan old new k rest
      | O =>
          if String.prefix old s
          then new +:+ replace_scan old new (String.length old - 1) rest
          else String c (replace_scan old new 0 rest)
      end
  end.

(** With an empty [old], Python puts [new] around every character. *)
Fixpoint replace_empty (new : string) (s : string) : string :=
  match s with
  | EmptyString => new
  | String c rest => new +:+ String c (replace_empty new rest)
  end.

Definition replace (s old new : string) : string :=
  match old with
  | EmptyString => replace_empty new s
  | String _ _ => replace_scan old new 0 s
  end.

(** [sep.join(l)] *)
Definition join (sep : string) (l : list string) : string := String.concat sep l.

(** Truth value of an [Optional[str]]: [None] and [""] are false. *)
Definition truthy (o : option string) : bool :=
  match o with
  | None | Some EmptyString => false
  | Some (String _ _) => true
  end.

(** [a or b] on [Optional[str]] *)
Definition or_else (a b : option string) : option string :=
  if truthy a then a else b.

(** *** Values that travel in a request *)

(** One chat message, [{"role": ..., "content": ...}]. *)
Record message := Message { role : string; content : string }.

Inductive pyval : Type :=
| PNone
| PBool (b : bool)
| PInt (z : Z)
| PFloat (f : float)
| PStr (s : string)
| PStrs (l : list string)
| PMessages (ms : list message)
| PHeaders (h : gmap string string).

Definition of_optional (o : option string) : pyval :=
  match o with
  | Some s => PStr s
  | None => PNone
  end.

End Py.

Export Py.

#[global] Instance M_ret {W} : MRet (M W) := λ A, @Py.ret W A.
#[global] Instance M_bind {W} : MBind (M W) := λ A B k m, Py.bind m k.
#[global] Instance Coro_ret {W} : MRet (Coro W) := λ A, @Py.coro_ret W A.
#[global] Instance Coro_bind {W} : MBind (Coro W) := λ A B k m, Py.coro_bind m k.

(** The outcome of a synchronous call is read as a [result] where one is
    expected, also inside a pair with the world. *)
Coercion Py.Done : Py.outcome >-> Py.result.
Arguments pair {A B}%_type_scope & a b.

(** ** The configuration record *)

Module LLMConfig.

(** Modelled from the spec: [metagpt.configs.llm_config.LLMConfig] is not
    one of the two files. The record has the fields the adapters read, as
    the configuration surface lists them: model name, pricing-plan
    override, max-token override, temperature, top-p, frequency and
    presence penalty, stop sequences, proxy address, usage-calculation
    toggle and timeout. A field that may be left unset is an [option]. *)
Record t := mk {
  model : option string;
  pricing_plan : option string;
  max_token : Z;
  temperature : float;
  top_p : float;
  frequency_penalty : float;
  presence_penalty : float;
  stop : option (list string);
  proxy : option string;
  calc_usage : bool;
  timeout : Z
}.

(** [config.model = m], every other field as it was. *)
Definition set_model (m : option string) (c : t) : t :=
  {| model := m;
     pricing_plan := pricing_plan c;
     max_token := max_token c;
     temperature := temperature c;
     top_p := top_p c;
     frequency_penalty := frequency_penalty c;
     presence_penalty := presence_penalty c;
     stop := stop c;
     proxy := proxy c;
     calc_usage := calc_usage c;
     timeout := timeout c |}.

End LLMConfig.

(** Modelled from the spec: [metagpt.utils.cost_manager.CostManager] is not
    one of the two files; it accumulates token usage. *)
Record CostManager := {
  total_prompt_tokens : Z;
  total_completion_tokens : Z
}.

(** ** [GitHubCopilotLLM]: the LiteLLM adapter ([github_copilot_api.py]) *)

Module GitHubCopilotLLM.

(** Token usage, as [response.usage], [chunk.usage] or the dict that
    [_calc_usage] builds. *)
Record Usage := {
  prompt_tokens : Z;
  completion_tokens : Z;
  total_tokens : Z
}.

(** What the completion client answers. Where the code tests an attribute
    with [hasattr] and for truth at once ([chunk.choices], [chunk.usage],
    [response.choices]), a missing attribute and [None] are alike, and both
    are the [None] of an [option]. Where it reads the attribute outright
    ([delta.content], [message.content], [response.usage]) the object has
    it, and the [None] of the [option] is Python's. [choice.delta] is read
    after [hasattr] alone, so there the three cases are kept apart. *)
Inductive attribute (A : Type) : Type :=
| Missing
| IsNone
| Has (a : A).
Arguments Missing {A}.
Arguments IsNone {A}.
Arguments Has {A} a.

Record Delta := { delta_content : option string }.
Record StreamingChoice := { choice_delta : attribute Delta }.
Record Chunk := {
  chunk_choices : option (list StreamingChoice);
  chunk_usage : option Usage
}.
Record Choice := { message_content : option string }.
Record ModelResponse := {
  choices : option (list Choice);
  usage : option Usage
}.

(** A completion, or an asynchronous sequence of chunks that ends normally
    ([failure = None]) or by raising after its last chunk. *)
Inductive response : Type :=
| Completion (r : ModelResponse)
| Stream (chunks : list Chunk) (failure : option raised).

(** What a method does to the outside, in the order it does it. *)
Inductive event : Type :=
| Acompletion (kwargs : gmap string pyval)
| LogLLMStream (s : string)
| LoggerError (msg : string)
| LoggerWarning (msg : string)
| UpdateCosts (u : option Usage).

(** The objects the adapter shares with the rest of the process: [config]
    is the very [LLMConfig] object the caller passed to the constructor
    ([self.config] is a reference to it, not a copy). *)
Record World := {
  config : LLMConfig.t;
  litellm_set_verbose : bool;
  litellm_proxy : option string;
  log : list event
}.

(** The attributes of [self] other than [self.config]. *)
Record t := {
  model : option string;
  pricing_plan : option string;
  cost_manager : option CostManager
}.

(** Names bound by the module's import statements and definitions. *)
Definition module_globals : list string :=
  ["os"; "Optional"; "litellm"; "acompletion"; "LITELLM_AVAILABLE";
   "LLMConfig"; "LLMType"; "USE_CONFIG_TIMEOUT"; "log_llm_stream"; "logger";
   "BaseLLM"; "register_provider"; "CostManager"; "count_message_tokens";
   "count_output_tokens"; "TOKEN_MAX"; "GitHubCopilotLLM"].

(** Code the file imports or inherits. *)
Class Collaborators := {
  LITELLM_AVAILABLE : bool;
  (** the default of every [timeout] parameter *)
  USE_CONFIG_TIMEOUT : Z;
  TOKEN_MAX : gmap string Z;
  (** [BaseLLM.get_timeout] *)
  get_timeout : LLMConfig.t → Z → Z;
  count_message_tokens : list message → string → outcome Z;
  count_output_tokens : string → string → outcome Z;
  (** [litellm.acompletion], awaited *)
  acompletion : gmap string pyval → result response
}.

Definition set_config_model (m : string) : M World unit :=
  modify (λ w, {| config := LLMConfig.set_model (Some m) (config w);
                  litellm_set_verbose := litellm_set_verbose w;
                  litellm_proxy := litellm_proxy w;
                  log := log w |}).

(** [litellm.set_verbose = b] *)
Definition set_litellm_verbose (b : bool) : M World unit :=
  modify (λ w, {| config := config w;
                  litellm_set_verbose := b;
                  litellm_proxy := litellm_proxy w;
                  log := log w |}).

(** [litellm.proxy = p] *)
Definition set_litellm_proxy (p : option string) : M World unit :=
  modify (λ w, {| config := config w;
                  litellm_set_verbose := litellm_set_verbose w;
                  litellm_proxy := p;
                  log := log w |}).

Definition emit (ev : event) : M World unit :=
  modify (λ w, {| config := config w;
                  litellm_set_verbose := litellm_set_verbose w;
                  litellm_proxy := litellm_proxy w;
                  log := log w ++ [ev] |}).

Definition logger_error (msg : string) : M World unit :=
  load_global module_globals "logger";; emit (LoggerError msg).

Definition logger_warning (msg : string) : M World unit :=
  load_global module_globals "logger";; emit (LoggerWarning msg).

Definition log_llm_stream (s : string) : M World unit := emit (LogLLMStream s).

(** Modelled from the spec: [BaseLLM._update_costs] is inherited and not
    part of the file; it forwards the usage it is given to the cost manager
    and lets no failure of the bookkeeping reach its caller. The usage it
    was called with is what the event records. *)
Definition _update_costs (u : option Usage) : M World unit := emit (UpdateCosts u).

Definition supported_models : list string :=
  ["gpt-4o"; "gpt-4.1"; "gpt-5-mini"; "gpt-5"].

Definition unsupported (name : string) : exn :=
  ValueError ("Unsupported GitHub Copilot model: " +:+ name +:+ ". "
              +:+ "Supported models: " +:+ join ", " supported_models).

Definition zero_usage : Usage :=
  {| prompt_tokens := 0; completion_tokens := 0; total_tokens := 0 |}.

Definition extra_headers : gmap string string :=
  <["Copilot-Integration-Id" := "vscode-chat"]>
    (<["Editor-Version" := "vscode/1.85.0"]> ∅).

Section Methods.
Context `{Collaborators}.

(** [_init_client]: resolves the model, writes it to the configuration
    and leaves [(self.model, self.pricing_plan)]. *)
Definition _init_client : M World (option string * option string) :=
  cfg ← gets config;
  match LLMConfig.model cfg with
  | None | Some EmptyString => set_config_model "github_copilot/gpt-4o"
  | Some m =>
      if negb (startswith m "github_copilot/") then
        if decide (m ∈ supported_models)
        then set_config_model ("github_copilot/" +:+ m)
        else raise (unsupported m)
      else
        let base_model := replace m "github_copilot/" "" in
        if decide (base_model ∈ supported_models)
        then mret ()
        else raise (unsupported base_model)
  end;;
  cfg ← gets config;
  let self_model := LLMConfig.model cfg in
  let self_pricing_plan := or_else (LLMConfig.pricing_plan cfg) self_model in
  set_litellm_verbose false;;
  (if truthy (LLMConfig.proxy cfg)
   then set_litellm_proxy (LLMConfig.proxy cfg)
   else mret ());;
  mret (self_model, self_pricing_plan).

Definition __init__ : M World t :=
  if negb LITELLM_AVAILABLE then
    raise (ImportError ("LiteLLM is required for GitHub Copilot provider. "
                        +:+ "Install it with: pip install litellm"))
  else
    '(m, p) ← _init_client;
    mret {| model := m; pricing_plan := p; cost_manager := None |}.

(** [TOKEN_MAX.get(self.model, self.config.max_token)] *)
Definition _get_max_tokens (self : t) (cfg : LLMConfig.t)
    (messages : list message) : Z :=
  default (LLMConfig.max_token cfg) (model self ≫= (TOKEN_MAX !!.)).

Definition _cons_kwargs (self : t) (cfg : LLMConfig.t)
    (messages : list message) (timeout : Z)
    (extra_kwargs : gmap string pyval) : gmap string pyval :=
  let kwargs : gmap string pyval :=
    <["timeout" := PInt (get_timeout cfg timeout)]>
      (<["temperature" := PFloat (LLMConfig.temperature cfg)]>
         (<["max_tokens" := PInt (_get_max_tokens self cfg messages)]>
            (<["messages" := PMessages messages]>
               (<["model" := of_optional (model self)]> ∅)))) in
  let kwargs := <["extra_headers" := PHeaders extra_headers]> kwargs in
  let kwargs :=
    if negb (PrimFloat.eqb (LLMConfig.top_p cfg) 1%float)
    then <["top_p" := PFloat (LLMConfig.top_p cfg)]> kwargs else kwargs in
  let kwargs :=
    if negb (PrimFloat.eqb (LLMConfig.frequency_penalty cfg) 0%float)
    then <["frequency_penalty" := PFloat (LLMConfig.frequency_penalty cfg)]> kwargs
    else kwargs in
  let kwargs :=
    if negb (PrimFloat.eqb (LLMConfig.presence_penalty cfg) 0%float)
    then <["presence_penalty" := PFloat (LLMConfig.presence_penalty cfg)]> kwargs
    else kwargs in
  let kwargs :=
    match LLMConfig.stop cfg with
    | Some (s :: l) => <["stop" := PStrs (s :: l)]> kwargs
    | Some [] | None => kwargs
    end in
  if Nat.eqb (size extra_kwargs) 0 then kwargs else extra_kwargs ∪ kwargs.

Definition _normalize_model_name (model_name : string) : string :=
  if startswith model_name "github_copilot/"
  then slice_from (String.length "github_copilot/") model_name
  else model_name.

Definition _calc_usage (self : t) (messages : list message)
    (response : string) : M World Usage :=
  cfg ← gets config;
  if negb (LLMConfig.calc_usage cfg) then mret zero_usage
  else
    try_except
      (normalized_model ←
         match pricing_plan self with
         | Some p => mret (_normalize_model_name p)
         | None =>
             raise (AttributeError
                      "'NoneType' object has no attribute 'startswith'")
         end;
       prompt ← call (count_message_tokens messages normalized_model);
       completion ← call (count_output_tokens response normalized_model);
       mret {| prompt_tokens := prompt;
               completion_tokens := completion;
               total_tokens := prompt + completion |})
      (λ e, logger_warning ("Usage calculation failed: " +:+ str e);;
            mret zero_usage).

Definition await_acompletion (kwargs : gmap string pyval) : Coro World response :=
  lift (emit (Acompletion kwargs));; await (acompletion kwargs).

Definition _achat_completion (self : t) (messages : list message)
    (timeout : Z) : Coro World ModelResponse :=
  cfg ← lift (gets config);
  let kwargs := _cons_kwargs self cfg messages (get_timeout cfg timeout) ∅ in
  try_except_Exception
    (response ← await_acompletion kwargs;
     match response with
     | Completion r => lift (_update_costs (usage r));; mret r
     | Stream _ _ =>
         lift (raise (AttributeError "stream object has no attribute 'usage'"))
     end)
    (λ e, lift (logger_error ("GitHub Copilot API error: " +:+ str e));;
          lift (raise e)).

(** The method [acompletion]; the underscore keeps it apart from the
    client's function of the same name. *)
Definition acompletion_ (self : t) (messages : list message)
    (timeout : Z) : Coro World ModelResponse :=
  cfg ← lift (gets config);
  _achat_completion self messages (get_timeout cfg timeout).

(** The body of [async for chunk in response]; nothing is awaited in it.
    [hasattr(choice, 'delta') and choice.delta.content] skips a choice
    without the attribute and raises on one whose [delta] is [None]. *)
Definition consume (chunk : Chunk) (acc : list string * option Usage)
    : M World (list string * option Usage) :=
  let '(collected_messages, usage) := acc in
  match chunk_choices chunk with
  | Some (choice :: _) =>
      collected_messages ←
        match choice_delta choice with
        | Has d =>
            if truthy (delta_content d) then
              let content := default "" (delta_content d) in
              log_llm_stream content;;
              mret (collected_messages ++ [content])
            else mret collected_messages
        | IsNone =>
            raise (AttributeError "'NoneType' object has no attribute 'content'")
        | Missing => mret collected_messages
        end;
      mret (collected_messages,
            match chunk_usage chunk with
            | Some u => Some u
            | None => usage
            end)
  | Some [] | None => mret acc
  end.

Fixpoint async_for (chunks : list Chunk) (acc : list string * option Usage)
    : M World (list string * option Usage) :=
  match chunks with
  | [] => mret acc
  | chunk :: rest => acc ← consume chunk acc; async_for rest acc
  end.

Definition _achat_completion_stream (self : t) (messages : list message)
    (timeout : Z) : Coro World string :=
  cfg ← lift (gets config);
  let kwargs :=
    _cons_kwargs self cfg messages (get_timeout cfg timeout)
      (<["stream" := PBool true]> ∅) in
  try_except_Exception
    (response ← await_acompletion kwargs;
     match response with
     | Completion _ =>
         lift (raise (TypeError
                        "'async for' requires an object with __aiter__ method"))
     | Stream chunks failure =>
         '(collected_messages, usage) ← lift (async_for chunks ([], None));
         match failure with Some r => reraise r | None => mret () end;;
         lift (log_llm_stream (String (ascii_of_nat 10) ""));;
         let full_content := join "" collected_messages in
         usage ←
           match usage with
           | None => lift (_calc_usage self messages full_content)
           | Some u => mret u
           end;
         lift (_update_costs (Some usage));;
         mret full_content
     end)
    (λ e, lift (logger_error ("GitHub Copilot streaming error: " +:+ str e));;
          lift (raise e)).

Definition get_choice_text (response : ModelResponse) : string :=
  match choices response with
  | Some (c :: _) => if truthy (message_content c)
                     then default "" (message_content c) else ""
  | Some [] | None => ""
  end.

Definition acompletion_text (self : t) (messages : list message)
    (stream : bool) (timeout : Z) : Coro World string :=
  if stream then _achat_completion_stream self messages timeout
  else
    cfg ← lift (gets config);
    response ← _achat_completion self messages (get_timeout cfg timeout);
    mret (get_choice_text response).

End Methods.

End GitHubCopilotLLM.

(** ** [GitHubLLM]: the search-assistant adapter ([github_api.py]) *)

(** No awaited call of this file sits under an [except] clause, and
    [async with] leaves the session on whatever is raised: the methods are
    followed through the [Exception]s of the client. *)

Module GitHubLLM.

Inductive event : Type :=
| SessionEnter (bing_cookies : option string)
| SessionExit
| Ask (prompt : string)
| AskStream (prompt : string)
| LoggerError (msg : string).

(** [config] is the object the caller passed to the constructor;
    [cost_manager] is [self.cost_manager]. *)
Record World := {
  config : LLMConfig.t;
  cost_manager : option CostManager;
  log : list event
}.

(** Names bound by the module's import statements and definitions;
    [logger] is not one of them. *)
Definition module_globals : list string :=
  ["annotations"; "os"; "asyncio"; "Optional"; "SydneyClient"; "LLMConfig";
   "LLMType"; "BaseLLM"; "register_provider"; "CostManager"; "GitHubLLM"].

(** Code the file imports. *)
Class Collaborators := {
  (** [os.environ] *)
  environ : gmap string string;
  (** [SydneyClient(bing_cookies=...).__aenter__] *)
  sydney_aenter : option string → outcome unit;
  (** [sydney.ask]: the text and the metadata that comes with it *)
  sydney_ask : string → outcome (string * pyval);
  (** [sydney.ask_stream]: the tokens yielded, and how the iteration ends *)
  sydney_ask_stream : string → list string * option exn;
  (** [CostManager.update_cost] *)
  update_cost : CostManager → Z → Z → option string → outcome CostManager
}.

Definition emit (ev : event) : M World unit :=
  modify (λ w, {| config := config w;
                  cost_manager := cost_manager w;
                  log := log w ++ [ev] |}).

Definition set_cost_manager (cm : option CostManager) : M World unit :=
  modify (λ w, {| config := config w; cost_manager := cm; log := log w |}).

Definition logger_error (msg : string) : M World unit :=
  load_global module_globals "logger";; emit (LoggerError msg).

(** [messages[-1]["content"]] *)
Definition last_content (messages : list message) : M World string :=
  match last messages with
  | Some m => mret (content m)
  | None => raise (IndexError "list index out of range")
  end.

(** [usage[key]] *)
Definition getitem (usage : gmap string Z) (key : string) : M World Z :=
  match usage !! key with
  | Some v => mret v
  | None => raise (KeyError key)
  end.

Section Methods.
Context `{Collaborators}.

Definition __init__ : M World unit := set_cost_manager None.

(** [async with SydneyClient(bing_cookies=os.environ.get("BING_COOKIES"))
    as sydney: body]; the session is left whether [body] returns or
    raises, and what it raises goes on to the caller. *)
Definition async_with_sydney {A} (body : M World A) : M World A :=
  let bing_cookies := environ !! "BING_COOKIES" in
  emit (SessionEnter bing_cookies);;
  call (sydney_aenter bing_cookies);;
  try_except (a ← body; emit SessionExit;; mret a)
             (λ e, emit SessionExit;; raise e).

Definition _achat_completion_stream (messages : list message)
    (timeout : Z) : M World string :=
  async_with_sydney
    (prompt ← last_content messages;
     emit (AskStream prompt);;
     let '(tokens, failure) := sydney_ask_stream prompt in
     let response := fold_left String.append tokens "" in
     match failure with
     | Some e => raise e
     | None => mret response
     end).

Definition acompletion_text (messages : list message) (stream : bool)
    (timeout : Z) : M World string :=
  if stream then _achat_completion_stream messages timeout
  else
    async_with_sydney
      (prompt ← last_content messages;
       emit (Ask prompt);;
       '(response, _) ← call (sydney_ask prompt);
       mret response).

Definition _update_costs (usage : gmap string Z) : M World unit :=
  cfg ← gets config;
  if LLMConfig.calc_usage cfg then
    try_except
      (cm ← gets cost_manager;
       match cm with
       | None =>
           raise (AttributeError
                    "'NoneType' object has no attribute 'update_cost'")
       | Some cm =>
           prompt_tokens ← getitem usage "prompt_tokens";
           completion_tokens ← getitem usage "completion_tokens";
           cm ← call (update_cost cm prompt_tokens completion_tokens
                        (LLMConfig.model cfg));
           set_cost_manager (Some cm)
       end)
      (λ e, logger_error ("Error updating costs: " +:+ str e))
  else mret ().

End Methods.

End GitHubLLM.

(** ** The LiteLLM adapter as the specification reads it *)

Module CopilotSpec.
Import GitHubCopilotLLM.

(** The incremental content of a chunk, [chunk.choices[0].delta.content],
    when there is one and it is not empty. *)
Definition fragment (c : Chunk) : option string :=
  match chunk_choices c with
  | Some (choice :: _) =>
      match choice_delta choice with
      | Has d => if truthy (delta_content d) then delta_content d else None
      | IsNone | Missing => None
      end
  | Some [] | None => None
  end.

(** A chunk the loop can read: its first choice, when it has one, does not
    have [None] for its [delta]. *)
Definition readable (c : Chunk) : bool :=
  match chunk_choices c with
  | Some (choice :: _) =>
      match choice_delta choice with
      | IsNone => false
      | Has _ | Missing => true
      end
  | Some [] | None => true
  end.

(** What reading a chunk that is not [readable] raises. *)
Definition delta_is_none : exn :=
  AttributeError "'NoneType' object has no attribute 'content'".

Definition fragments (chunks : list Chunk) : list string := omap fragment chunks.

(** The usage supplied by the stream: that of the last chunk carrying one. *)
Definition carried_usage (chunks : list Chunk) : option Usage :=
  last (omap chunk_usage chunks).

(** The usage of a chunk that also has a choice. *)
Definition usage_beside_choice (c : Chunk) : option Usage :=
  match chunk_choices c with
  | Some (_ :: _) => chunk_usage c
  | Some [] | None => None
  end.

Definition kept_usage (chunks : list Chunk) : option Usage :=
  last (omap usage_beside_choice chunks).

(** The world after the events [evs]. *)
Definition logged (w : World) (evs : list event) : World :=
  {| config := config w;
     litellm_set_verbose := litellm_set_verbose w;
     litellm_proxy := litellm_proxy w;
     log := log w ++ evs |}.

Definition newline : string := String (ascii_of_nat 10) "".

(** The world a successful construction leaves, [c] being the
    configuration object as construction leaves it. *)
Definition constructed (w : World) (c : LLMConfig.t) : World :=
  {| config := c;
     litellm_set_verbose := false;
     litellm_proxy :=
       if truthy (LLMConfig.proxy c) then LLMConfig.proxy c else litellm_proxy w;
     log := log w |}.

(** Construction on [w] succeeds and resolves the model to [id]: the
    adapter and the configuration both carry it, and nothing was sent or
    logged on the way. *)
Definition resolves_to `{Collaborators} (w : World) (id : string) : Prop :=
  ∃ self w', __init__ w = (Return self, w') ∧ model self = Some id
             ∧ LLMConfig.model (config w') = Some id ∧ log w' = log w.

(** A method that leaves the configuration object as it found it. *)
Definition preserves_config {R} (m : World → R * World) : Prop :=
  ∀ w, config (snd (m w)) = config w.

(** The request of a streaming call. *)
Definition stream_kwargs `{Collaborators} (self : t) (w : World)
    (messages : list message) (timeout : Z) : gmap string pyval :=
  _cons_kwargs self (config w) messages (get_timeout (config w) timeout)
    (<["stream" := PBool true]> ∅).

(** The world a streaming call has reached when the stream is exhausted. *)
Definition drained `{Collaborators} (self : t) (w : World)
    (messages : list message) (timeout : Z) (chunks : list Chunk) : World :=
  logged w (Acompletion (stream_kwargs self w messages timeout)
              :: (LogLLMStream <$> fragments chunks) ++ [LogLLMStream newline]).

Definition well_formed (u : Usage) : Prop :=
  0 ≤ prompt_tokens u ∧ 0 ≤ completion_tokens u
  ∧ total_tokens u = prompt_tokens u + completion_tokens u.

(** The token counters count: what they return is not negative. *)
Definition counters_count `{Collaborators} : Prop :=
  (∀ ms m n, count_message_tokens ms m = Return n → 0 ≤ n)
  ∧ (∀ s m n, count_output_tokens s m = Return n → 0 ≤ n).


End CopilotSpec.

(** ** A session of the search assistant *)

Module SessionSpec.
Import GitHubLLM.

(** The world after the events [evs]. *)
Definition logged (w : World) (evs : list event) : World :=
  {| config := config w;
     cost_manager := cost_manager w;
     log := log w ++ evs |}.

Definition logger_undefined : exn := NameError "name 'logger' is not defined".

End SessionSpec.

(** ** Concrete collaborators and inputs *)

Module Demo.
Import GitHubCopilotLLM.

Definition cfg (m : option string) : LLMConfig.t :=
  {| LLMConfig.model := m;
     LLMConfig.pricing_plan := None;
     LLMConfig.max_token := 4096;
     LLMConfig.temperature := 0%float;
     LLMConfig.top_p := 1%float;
     LLMConfig.frequency_penalty := 0%float;
     LLMConfig.presence_penalty := 0%float;
     LLMConfig.stop := None;
     LLMConfig.proxy := None;
     LLMConfig.calc_usage := true;
     LLMConfig.timeout := 600 |}.

Definition world (c : LLMConfig.t) : World :=
  {| config := c;
     litellm_set_verbose := true;
     litellm_proxy := None;
     log := [] |}.

Definition self : t :=
  {| model := Some "github_copilot/gpt-4o";
     pricing_plan := Some "github_copilot/gpt-4o";
     cost_manager := None |}.

Definition text_chunk (s : string) : Chunk :=
  {| chunk_choices := Some [ {| choice_delta := Has {| delta_content := Some s |} |} ];
     chunk_usage := None |}.

Definition usage_5_2 : Usage :=
  {| prompt_tokens := 5; completion_tokens := 2; total_tokens := 7 |}.

(** A final chunk that carries the usage and no choice. *)
Definition usage_chunk : Chunk :=
  {| chunk_choices := Some []; chunk_usage := Some usage_5_2 |}.

Definition hello : list Chunk := [text_chunk "Hel"; text_chunk "lo"].

(** Collaborators whose completion client streams [chunks]; the counters
    count three tokens a message and one token a character. *)
Definition streaming (chunks : list Chunk) : Collaborators :=
  {| LITELLM_AVAILABLE := true;
     USE_CONFIG_TIMEOUT := 0;
     TOKEN_MAX := <["github_copilot/gpt-4o" := 128000]> ∅;
     get_timeout c t := if Z.eqb t 0 then LLMConfig.timeout c else t;
     count_message_tokens ms _ := Return (3 * Z.of_nat (length ms));
     count_output_tokens s _ := Return (Z.of_nat (String.length s));
     acompletion _ := Return (Stream chunks None) |}.

(** The same, with a message counter that fails. *)
Definition failing_counter (chunks : list Chunk) : Collaborators :=
  {| LITELLM_AVAILABLE := true;
     USE_CONFIG_TIMEOUT := 0;
     TOKEN_MAX := ∅;
     get_timeout c t := if Z.eqb t 0 then LLMConfig.timeout c else t;
     count_message_tokens _ _ := Raise (KeyError "cl100k_base");
     count_output_tokens s _ := Return (Z.of_nat (String.length s));
     acompletion _ := Return (Stream chunks None) |}.

Definition hi : list message := [Message "user" "hi"].

(** The search-assistant side: a client that answers every prompt with the
    same text, and a cost manager that adds up. *)
Definition sydney : GitHubLLM.Collaborators :=
  {| GitHubLLM.environ := ∅;
     GitHubLLM.sydney_aenter _ := Return ();
     GitHubLLM.sydney_ask _ := Return ("Hello, world! I am a language model.", PNone);
     GitHubLLM.sydney_ask_stream _ := (["Hello"; ", "; "world"], None);
     GitHubLLM.update_cost cm p c _ :=
       Return {| total_prompt_tokens := total_prompt_tokens cm + p;
                 total_completion_tokens := total_completion_tokens cm + c |} |}.

Definition github_world (c : LLMConfig.t) : GitHubLLM.World :=
  {| GitHubLLM.config := c; GitHubLLM.cost_manager := None; GitHubLLM.log := [] |}.

Definition usage_dict : gmap string Z :=
  <["completion_tokens" := 2]> (<["prompt_tokens" := 5]> ∅).

End Demo.

(** ** What a call leaves in the log *)

Module Trace.
Import GitHubCopilotLLM.

(** The requests sent to the completion client. *)
Definition requests (evs : list event) : list (gmap string pyval) :=
  omap (λ ev, match ev with Acompletion kwargs => Some kwargs | _ => None end) evs.

(** The usages handed to [_update_costs]. *)
Definition cost_updates (evs : list event) : list (option Usage) :=
  omap (λ ev, match ev with UpdateCosts u => Some u | _ => None end) evs.

(** The strings sent to the live-output sink. *)
Definition sink (evs : list event) : list string :=
  omap (λ ev, match ev with LogLLMStream s => Some s | _ => None end) evs.

(** The error records. *)
Definition errors (evs : list event) : list string :=
  omap (λ ev, match ev with LoggerError msg => Some msg | _ => None end) evs.

(** The request of a non-streaming call. *)
Definition completion_kwargs `{Collaborators} (self : t) (w : World)
    (messages : list message) (timeout : Z) : gmap string pyval :=
  _cons_kwargs self (config w) messages (get_timeout (config w) timeout) ∅.

(** The keys [_cons_kwargs] writes by itself. *)
Definition payload_keys : list string :=
  ["model"; "messages"; "max_tokens"; "temperature"; "timeout"; "extra_headers";
   "top_p"; "frequency_penalty"; "presence_penalty"; "stop"].

(** The prompts put to the search assistant, in either mode. *)
Definition prompts (evs : list GitHubLLM.event) : list string :=
  omap (λ ev, match ev with
              | GitHubLLM.Ask p | GitHubLLM.AskStream p => Some p
              | _ => None
              end) evs.

End Trace.

(** ** More collaborators *)

Module Cases.
Import GitHubCopilotLLM.

(** A completion client that answers every request with [r]. *)
Definition client (available : bool) (r : result response) : Collaborators :=
  {| LITELLM_AVAILABLE := available;
     USE_CONFIG_TIMEOUT := 0;
     TOKEN_MAX := <["github_copilot/gpt-4o" := 128000]> ∅;
     get_timeout c t := if Z.eqb t 0 then LLMConfig.timeout c else t;
     count_message_tokens ms _ := Return (3 * Z.of_nat (length ms));
     count_output_tokens s _ := Return (Z.of_nat (String.length s));
     acompletion _ := r |}.

Definition hello_world : ModelResponse :=
  {| choices := Some [ {| message_content := Some "Hello, world!" |};
                       {| message_content := Some "second" |} ];
     usage := Some Demo.usage_5_2 |}.

Definition timed_out : exn := UpstreamError "request timed out".

(** A chunk whose first choice has [None] for its [delta]. *)
Definition broken_chunk : Chunk :=
  {| chunk_choices := Some [ {| choice_delta := IsNone |} ]; chunk_usage := None |}.


(** A configuration with every optional field of the payload set. *)
Definition tuned : LLMConfig.t :=
  {| LLMConfig.model := Some "gpt-5";
     LLMConfig.pricing_plan := Some "gpt-4o";
     LLMConfig.max_token := 2048;
     LLMConfig.temperature := 0.5%float;
     LLMConfig.top_p := 0.5%float;
     LLMConfig.frequency_penalty := 0.5%float;
     LLMConfig.presence_penalty := 0.5%float;
     LLMConfig.stop := Some ["END"];
     LLMConfig.proxy := Some "http://localhost:8080";
     LLMConfig.calc_usage := true;
     LLMConfig.timeout := 60 |}.

(** A search-assistant client given by its three operations. *)
Definition sydney (enter : outcome unit) (answer : outcome (string * pyval))
    (tokens : list string * option exn) : GitHubLLM.Collaborators :=
  {| GitHubLLM.environ := <["BING_COOKIES" := "cookie"]> ∅;
     GitHubLLM.sydney_aenter _ := enter;
     GitHubLLM.sydney_ask _ := answer;
     GitHubLLM.sydney_ask_stream _ := tokens;
     GitHubLLM.update_cost cm p c _ :=
       Return {| total_prompt_tokens := total_prompt_tokens cm + p;
                 total_completion_tokens := total_completion_tokens cm + c |} |}.

Definition github_world (c : LLMConfig.t) (cm : option CostManager) : GitHubLLM.World :=
  {| GitHubLLM.config := c; GitHubLLM.cost_manager := cm; GitHubLLM.log := [] |}.

Definition fresh_manager : CostManager :=
  {| total_prompt_tokens := 10; total_completion_tokens := 20 |}.

Definition conversation : list message :=
  [Message "system" "Be brief."; Message "user" "Hello, world!"].

End Cases.

(** * Properties *)

(** ** The monad *)

Section Monad.
Context {W : Type}.

Lemma bind_run {A B} (m : M W A) (k : A → M W B) (w : W) :
  (m ≫= k) w =
    match m w with
    | (Return a, w') => k a w'
    | (Raise e, w') => (Raise e, w')
    end.
Proof. reflexivity. Qed.

Lemma bind_returns {A B} (m : M W A) (k : A → M W B) (w w' : W) (a : A) :
  m w = (Return a, w') → (m ≫= k) w = k a w'.
Proof. intros Hm. rewrite bind_run, Hm. reflexivity. Qed.

Lemma bind_raises {A B} (m : M W A) (k : A → M W B) (w w' : W) (e : exn) :
  m w = (Raise e, w') → (m ≫= k) w = (Raise e, w').
Proof. intros Hm. rewrite bind_run, Hm. reflexivity. Qed.

Lemma try_except_returns {A} (body : M W A) handler (w w' : W) (a : A) :
  body w = (Return a, w') → try_except body handler w = (Return a, w').
Proof. intros Hb. unfold try_except. rewrite Hb. reflexivity. Qed.

Lemma try_except_raises {A} (body : M W A) handler (w w' : W) (e : exn) :
  body w = (Raise e, w') → try_except body handler w = handler e w'.
Proof. intros Hb. unfold try_except. rewrite Hb. reflexivity. Qed.

End Monad.

(** One step of a method: a bind is opened, a primitive is run. *)
Ltac run_step :=
  first [ rewrite bind_run
        | progress cbn [call gets modify raise mret M_ret Py.ret fst snd] ].

(** ** Coroutines *)

Section Coroutines.
Context {W : Type}.

Lemma coro_bind_run {A B} (m : Coro W A) (k : A → Coro W B) (w : W) :
  (m ≫= k) w =
    match m w with
    | (Done (Return a), w') => k a w'
    | (Done (Raise e), w') => (Done (Raise e), w')
    | (Interrupted b, w') => (Interrupted b, w')
    end.
Proof. reflexivity. Qed.

Lemma lift_run {A} (m : M W A) (w : W) :
  lift m w = (Done (fst (m w)), snd (m w)).
Proof. unfold lift. destruct (m w). reflexivity. Qed.

Lemma lift_bind_run {A B} (m : M W A) (k : A → Coro W B) (w : W) :
  (lift m ≫= k) w =
    match m w with
    | (Return a, w') => k a w'
    | (Raise e, w') => (Done (Raise e), w')
    end.
Proof. rewrite coro_bind_run, lift_run. destruct (m w) as [[a|e] w']; reflexivity. Qed.

End Coroutines.

(** One step of a coroutine. *)
Ltac coro_step :=
  first [ rewrite lift_bind_run
        | rewrite coro_bind_run
        | rewrite lift_run
        | progress cbn [await reraise call gets modify raise mret M_ret Py.ret
                        Coro_ret Py.coro_ret fst snd] ].

(** ** Strings *)

Section Strings.

Lemma startswith_app (p s : string) : startswith (p +:+ s) p = true.
Proof.
  unfold startswith. induction p as [|c p IH]; simpl.
  - destruct s; reflexivity.
  - destruct (ascii_dec c c) as [_|Hne]; [exact IH | contradiction].
Qed.

Lemma startswith_split (s p : string) :
  startswith s p = true → s = p +:+ slice_from (String.length p) s.
Proof.
  unfold startswith. revert s. induction p as [|c p IH]; intros s Hp; simpl.
  - reflexivity.
  - destruct s as [|d s]; simpl in Hp; [discriminate|].
    destruct (ascii_dec c d) as [->|_]; [|discriminate].
    change (String d s = String d (p +:+ slice_from (String.length p) s)).
    f_equal. apply IH, Hp.
Qed.

Lemma slice_from_app (p s : string) : slice_from (String.length p) (p +:+ s) = s.
Proof. induction p as [|c p IH]; simpl; [reflexivity | exact IH]. Qed.

End Strings.

(** ** The LiteLLM adapter *)

Section Copilot.
Import GitHubCopilotLLM CopilotSpec.
Context `{Collaborators}.

Lemma logged_nil (w : World) : logged w [] = w.
Proof. destruct w. unfold logged. simpl. rewrite app_nil_r. reflexivity. Qed.

Lemma logged_app (w : World) (a b : list event) :
  logged (logged w a) b = logged w (a ++ b).
Proof. unfold logged. simpl. rewrite app_assoc. reflexivity. Qed.

Lemma emit_run (ev : event) (w : World) : emit ev w = (Return (), logged w [ev]).
Proof. reflexivity. Qed.

Lemma logger_bound : "logger" ∈ module_globals.
Proof. apply (bool_decide_unpack _). reflexivity. Qed.

Lemma load_logger (w : World) : load_global module_globals "logger" w = (Return (), w).
Proof.
  unfold load_global. destruct (decide ("logger" ∈ module_globals)) as [_|Hn].
  - reflexivity.
  - destruct (Hn logger_bound).
Qed.

Lemma logger_error_run (msg : string) (w : World) :
  logger_error msg w = (Return (), logged w [LoggerError msg]).
Proof.
  unfold logger_error. rewrite (bind_returns _ _ _ _ _ (load_logger w)).
  apply emit_run.
Qed.

Lemma logger_warning_run (msg : string) (w : World) :
  logger_warning msg w = (Return (), logged w [LoggerWarning msg]).
Proof.
  unfold logger_warning. rewrite (bind_returns _ _ _ _ _ (load_logger w)).
  apply emit_run.
Qed.

End Copilot.

(** ** Construction of the LiteLLM adapter *)

Section Construction.
Import GitHubCopilotLLM CopilotSpec.
Context `{Collaborators}.

Lemma set_model_same (c : LLMConfig.t) : LLMConfig.set_model (LLMConfig.model c) c = c.
Proof. destruct c; reflexivity. Qed.

(** What follows the three branches of [_init_client]. *)
Lemma init_client_tail (w : World) (c : LLMConfig.t) :
  let w1 := {| config := c; litellm_set_verbose := litellm_set_verbose w;
               litellm_proxy := litellm_proxy w; log := log w |} in
  (cfg ← gets config;
   let self_model := LLMConfig.model cfg in
   let self_pricing_plan := or_else (LLMConfig.pricing_plan cfg) self_model in
   set_litellm_verbose false;;
   (if truthy (LLMConfig.proxy cfg)
    then set_litellm_proxy (LLMConfig.proxy cfg)
    else mret ());;
   mret (self_model, self_pricing_plan)) w1
  = (Return (LLMConfig.model c, or_else (LLMConfig.pricing_plan c) (LLMConfig.model c)),
     constructed w c).
Proof.
  unfold constructed. cbv beta zeta.
  rewrite bind_run. cbn [gets config].
  destruct (truthy (LLMConfig.proxy c)); reflexivity.
Qed.

Lemma init_client_default (w : World) :
  truthy (LLMConfig.model (config w)) = false →
  _init_client w =
    (Return (Some "github_copilot/gpt-4o",
             or_else (LLMConfig.pricing_plan (config w)) (Some "github_copilot/gpt-4o")),
     constructed w (LLMConfig.set_model (Some "github_copilot/gpt-4o") (config w))).
Proof.
  intros Hm. unfold _init_client. rewrite bind_run. cbn [gets].
  destruct (LLMConfig.model (config w)) as [[|a m]|]; try discriminate Hm.
  - rewrite bind_run. cbn [set_config_model modify].
    apply (init_client_tail w (LLMConfig.set_model _ (config w))).
  - rewrite bind_run. cbn [set_config_model modify].
    apply (init_client_tail w (LLMConfig.set_model _ (config w))).
Qed.

Lemma init_client_bare (w : World) (m : string) :
  LLMConfig.model (config w) = Some m → truthy (Some m) = true →
  startswith m "github_copilot/" = false →
  _init_client w =
    if decide (m ∈ supported_models) then
      (Return (Some ("github_copilot/" +:+ m),
               or_else (LLMConfig.pricing_plan (config w)) (Some ("github_copilot/" +:+ m))),
       constructed w (LLMConfig.set_model (Some ("github_copilot/" +:+ m)) (config w)))
    else (Raise (unsupported m), w).
Proof.
  intros Hm Ht Hs. unfold _init_client. rewrite bind_run. cbn [gets].
  rewrite Hm. destruct m as [|a m]; [discriminate Ht|].
  rewrite Hs. cbn [negb]. destruct (decide (String a m ∈ supported_models)).
  - rewrite bind_run. cbn [set_config_model modify].
    apply (init_client_tail w (LLMConfig.set_model _ (config w))).
  - reflexivity.
Qed.

Lemma init_client_prefixed (w : World) (m : string) :
  LLMConfig.model (config w) = Some m →
  startswith m "github_copilot/" = true →
  _init_client w =
    if decide (replace m "github_copilot/" "" ∈ supported_models) then
      (Return (Some m, or_else (LLMConfig.pricing_plan (config w)) (Some m)),
       constructed w (config w))
    else (Raise (unsupported (replace m "github_copilot/" "")), w).
Proof.
  intros Hm Hs. unfold _init_client. rewrite bind_run. cbn [gets].
  rewrite Hm. destruct m as [|a m]; [discriminate Hs|].
  rewrite Hs. cbn [negb].
  destruct (decide (replace (String a m) "github_copilot/" "" ∈ supported_models)).
  - rewrite bind_run. cbn [mret M_ret Py.ret].
    rewrite <- Hm.
    destruct w as [c v p l]. apply (init_client_tail (Build_World c v p l) c).
  - reflexivity.
Qed.

Lemma init_run (w : World) :
  LITELLM_AVAILABLE = true →
  __init__ w =
    match _init_client w with
    | (Return (m, p), w') =>
        (Return {| model := m; pricing_plan := p; cost_manager := None |}, w')
    | (Raise e, w') => (Raise e, w')
    end.
Proof.
  intros Hl. unfold __init__. rewrite Hl. cbn [negb]. rewrite bind_run.
  destruct (_init_client w) as [[[m p]|e] w']; reflexivity.
Qed.

End Construction.

Section ConstructionClaims.
Import GitHubCopilotLLM CopilotSpec.
Context `{Collaborators}.

Lemma resolves_default (w : World) :
  LITELLM_AVAILABLE = true →
  truthy (LLMConfig.model (config w)) = false →
  resolves_to w "github_copilot/gpt-4o".
Proof.
  intros Hl Hm. unfold resolves_to.
  rewrite (init_run w Hl), (init_client_default w Hm).
  eexists _, _. repeat split; reflexivity.
Qed.

Lemma resolves_bare (w : World) (m : string) :
  LITELLM_AVAILABLE = true →
  LLMConfig.model (config w) = Some m → truthy (Some m) = true →
  startswith m "github_copilot/" = false →
  m ∈ supported_models →
  resolves_to w ("github_copilot/" +:+ m).
Proof.
  intros Hl Hm Ht Hs Hin. unfold resolves_to.
  rewrite (init_run w Hl), (init_client_bare w m Hm Ht Hs).
  destruct (decide (m ∈ supported_models)) as [_|Hn]; [|destruct (Hn Hin)].
  eexists _, _. repeat split; reflexivity.
Qed.

Lemma resolves_prefixed (w : World) (m : string) :
  LITELLM_AVAILABLE = true →
  LLMConfig.model (config w) = Some m →
  startswith m "github_copilot/" = true →
  replace m "github_copilot/" "" ∈ supported_models →
  __init__ w =
    (Return {| model := Some m;
               pricing_plan := or_else (LLMConfig.pricing_plan (config w)) (Some m);
               cost_manager := None |},
     constructed w (config w)).
Proof.
  intros Hl Hm Hs Hin.
  rewrite (init_run w Hl), (init_client_prefixed w m Hm Hs).
  destruct (decide (replace m "github_copilot/" "" ∈ supported_models)) as [_|Hn];
    [reflexivity | destruct (Hn Hin)].
Qed.

Lemma rejects_prefixed (w : World) (m : string) :
  LITELLM_AVAILABLE = true →
  LLMConfig.model (config w) = Some m →
  startswith m "github_copilot/" = true →
  replace m "github_copilot/" "" ∉ supported_models →
  __init__ w = (Raise (unsupported (replace m "github_copilot/" "")), w).
Proof.
  intros Hl Hm Hs Hout.
  rewrite (init_run w Hl), (init_client_prefixed w m Hm Hs).
  destruct (decide (replace m "github_copilot/" "" ∈ supported_models)) as [Hin|_];
    [destruct (Hout Hin) | reflexivity].
Qed.

Lemma rejects_bare (w : World) (m : string) :
  LITELLM_AVAILABLE = true →
  LLMConfig.model (config w) = Some m → truthy (Some m) = true →
  startswith m "github_copilot/" = false →
  m ∉ supported_models →
  __init__ w = (Raise (unsupported m), w).
Proof.
  intros Hl Hm Ht Hs Hout.
  rewrite (init_run w Hl), (init_client_bare w m Hm Ht Hs).
  destruct (decide (m ∈ supported_models)) as [Hin|_];
    [destruct (Hout Hin) | reflexivity].
Qed.

Lemma gpt_4o_supported : "gpt-4o" ∈ supported_models.
Proof. apply (bool_decide_unpack _). reflexivity. Qed.

Lemma not_a_model_unsupported : "not-a-model" ∉ supported_models.
Proof. apply (bool_decide_unpack _). reflexivity. Qed.

(** C3: construction resolves an empty model and the bare name "gpt-4o" to
    "github_copilot/gpt-4o", leaves "github_copilot/gpt-4o" as it is, and
    fails on "not-a-model" with a [ValueError], the world untouched: no
    request was sent. *)
Theorem C3_model_resolution (w : World) :
  LITELLM_AVAILABLE = true →
  (truthy (LLMConfig.model (config w)) = false →
     resolves_to w "github_copilot/gpt-4o")
  ∧ (LLMConfig.model (config w) = Some "gpt-4o" →
     resolves_to w "github_copilot/gpt-4o")
  ∧ (LLMConfig.model (config w) = Some "github_copilot/gpt-4o" →
     resolves_to w "github_copilot/gpt-4o")
  ∧ (LLMConfig.model (config w) = Some "not-a-model" →
     __init__ w = (Raise (unsupported "not-a-model"), w)).
Proof.
  intros Hl. repeat split.
  - apply resolves_default, Hl.
  - intros Hm.
    apply (resolves_bare w "gpt-4o" Hl Hm eq_refl eq_refl gpt_4o_supported).
  - intros Hm. unfold resolves_to.
    rewrite (resolves_prefixed w _ Hl Hm eq_refl gpt_4o_supported).
    eexists _, _. split; [reflexivity|]. split; [reflexivity|].
    split; [exact Hm | reflexivity].
  - intros Hm.
    apply (rejects_bare w _ Hl Hm eq_refl eq_refl not_a_model_unsupported).
Qed.

(** C10: for a model that starts with "github_copilot/", construction
    validates the string with every occurrence of the prefix removed and
    keeps the string as the resolved id, the configuration unchanged; so
    "github_copilot/github_copilot/gpt-4o" is accepted as it stands. *)
Theorem C10_prefixed_validation (w : World) (m : string) :
  LITELLM_AVAILABLE = true →
  LLMConfig.model (config w) = Some m →
  startswith m "github_copilot/" = true →
  (replace m "github_copilot/" "" ∈ supported_models →
     ∃ self, __init__ w = (Return self, constructed w (config w))
             ∧ model self = Some m)
  ∧ (replace m "github_copilot/" "" ∉ supported_models →
     __init__ w = (Raise (unsupported (replace m "github_copilot/" "")), w))
  ∧ (m = "github_copilot/github_copilot/gpt-4o" →
     ∃ self, __init__ w = (Return self, constructed w (config w))
             ∧ model self = Some "github_copilot/github_copilot/gpt-4o").
Proof.
  intros Hl Hm Hs. repeat split.
  - intros Hin. rewrite (resolves_prefixed w m Hl Hm Hs Hin).
    eexists. split; reflexivity.
  - intros Hout. apply (rejects_prefixed w m Hl Hm Hs Hout).
  - intros ->. rewrite (resolves_prefixed w _ Hl Hm Hs gpt_4o_supported).
    eexists. split; reflexivity.
Qed.

(** Stripping the leading prefix alone, as [_normalize_model_name] does,
    would leave a name outside the supported ones. *)
Lemma normalize_double_prefix :
  _normalize_model_name "github_copilot/github_copilot/gpt-4o" = "github_copilot/gpt-4o"
  ∧ ("github_copilot/gpt-4o" ∉ supported_models)
  ∧ replace "github_copilot/github_copilot/gpt-4o" "github_copilot/" "" = "gpt-4o".
Proof.
  split. { reflexivity. }
  split. 2: { reflexivity. }
  apply (bool_decide_unpack _). reflexivity.
Qed.

Lemma normalize_prefixed (name : string) :
  _normalize_model_name ("github_copilot/" +:+ name) = name.
Proof.
  unfold _normalize_model_name. rewrite startswith_app.
  apply (slice_from_app "github_copilot/").
Qed.

Lemma normalize_bare (name : string) :
  startswith name "github_copilot/" = false → _normalize_model_name name = name.
Proof. intros Hs. unfold _normalize_model_name. rewrite Hs. reflexivity. Qed.

(** On a supported name under one prefix the two ways of stripping agree. *)
Lemma replace_prefixed_supported (name : string) :
  name ∈ supported_models →
  replace ("github_copilot/" +:+ name) "github_copilot/" "" = name.
Proof.
  unfold supported_models. rewrite !elem_of_cons, elem_of_nil.
  intros [->|[->|[->|[->|[]]]]]; reflexivity.
Qed.

(** Every supported name is accepted under the prefix, and kept with it. *)
Lemma accepts_prefixed_supported (w : World) (name : string) :
  LITELLM_AVAILABLE = true →
  LLMConfig.model (config w) = Some ("github_copilot/" +:+ name) →
  name ∈ supported_models →
  ∃ self, __init__ w = (Return self, constructed w (config w))
          ∧ model self = Some ("github_copilot/" +:+ name).
Proof.
  intros Hl Hm Hin.
  rewrite (resolves_prefixed w _ Hl Hm (startswith_app _ _)).
  - eexists. split; reflexivity.
  - rewrite (replace_prefixed_supported name Hin). exact Hin.
Qed.

End ConstructionClaims.

(** C3 on the four model inputs it names. *)
Lemma C3_model_resolution_witness :
  CopilotSpec.resolves_to (H := Demo.streaming []) (Demo.world (Demo.cfg None))
    "github_copilot/gpt-4o"
  ∧ CopilotSpec.resolves_to (H := Demo.streaming []) (Demo.world (Demo.cfg (Some "gpt-4o")))
      "github_copilot/gpt-4o"
  ∧ CopilotSpec.resolves_to (H := Demo.streaming [])
      (Demo.world (Demo.cfg (Some "github_copilot/gpt-4o"))) "github_copilot/gpt-4o"
  ∧ GitHubCopilotLLM.__init__ (H := Demo.streaming [])
      (Demo.world (Demo.cfg (Some "not-a-model")))
    = (Raise (GitHubCopilotLLM.unsupported "not-a-model"),
       Demo.world (Demo.cfg (Some "not-a-model"))).
Proof.
  split; [|split; [|split]].
  - exact (proj1 (C3_model_resolution (H := Demo.streaming [])
                    (Demo.world (Demo.cfg None)) eq_refl) eq_refl).
  - exact (proj1 (proj2 (C3_model_resolution (H := Demo.streaming [])
                    (Demo.world (Demo.cfg (Some "gpt-4o"))) eq_refl)) eq_refl).
  - exact (proj1 (proj2 (proj2 (C3_model_resolution (H := Demo.streaming [])
                    (Demo.world (Demo.cfg (Some "github_copilot/gpt-4o"))) eq_refl)))
             eq_refl).
  - exact (proj2 (proj2 (proj2 (C3_model_resolution (H := Demo.streaming [])
                    (Demo.world (Demo.cfg (Some "not-a-model"))) eq_refl)))
             eq_refl).
Defined.

(** C10 on the doubly prefixed model. *)
Lemma C10_prefixed_validation_witness :
  let w := Demo.world (Demo.cfg (Some "github_copilot/github_copilot/gpt-4o")) in
  ∃ self,
    GitHubCopilotLLM.__init__ (H := Demo.streaming []) w
    = (Return self, CopilotSpec.constructed w (GitHubCopilotLLM.config w))
    ∧ GitHubCopilotLLM.model self = Some "github_copilot/github_copilot/gpt-4o".
Proof.
  intros w.
  apply (proj1 (C10_prefixed_validation (H := Demo.streaming []) w
                  "github_copilot/github_copilot/gpt-4o" eq_refl eq_refl eq_refl)).
  apply (bool_decide_unpack _). exact I.
Defined.

(** ** What the methods leave of the configuration *)

Create HintDb frame.

Section Frame.
Import GitHubCopilotLLM CopilotSpec.
Context `{Collaborators}.

Lemma preserves_ret {A} (a : A) : preserves_config (@Py.ret World A a).
Proof. intros w. reflexivity. Qed.

Lemma preserves_raise {A} (e : exn) : preserves_config (@raise World A e).
Proof. intros w. reflexivity. Qed.

Lemma preserves_call {A} (r : outcome A) : preserves_config (call r).
Proof. intros w. reflexivity. Qed.

Lemma preserves_gets {A} (f : World → A) : preserves_config (gets f).
Proof. intros w. reflexivity. Qed.

Lemma preserves_emit (ev : event) : preserves_config (emit ev).
Proof. intros w. reflexivity. Qed.

Lemma preserves_bind {A B} (m : M World A) (k : A → M World B) :
  preserves_config m → (∀ a, preserves_config (k a)) → preserves_config (m ≫= k).
Proof.
  intros Hm Hk w. rewrite bind_run. specialize (Hm w).
  destruct (m w) as [[a|e] w']; simpl in Hm.
  - rewrite (Hk a w'). exact Hm.
  - exact Hm.
Qed.

Lemma preserves_try {A} (body : M World A) (handler : exn → M World A) :
  preserves_config body → (∀ e, preserves_config (handler e)) →
  preserves_config (try_except body handler).
Proof.
  intros Hb Hh w. unfold try_except. specialize (Hb w).
  destruct (body w) as [[a|e] w']; simpl in Hb.
  - exact Hb.
  - rewrite (Hh e w'). exact Hb.
Qed.

Lemma preserves_load_global (globals : list string) (name : string) :
  preserves_config (load_global globals name).
Proof. intros w. unfold load_global. destruct (decide _); reflexivity. Qed.

Lemma preserves_coro_ret {A} (a : A) : preserves_config (@coro_ret World A a).
Proof. intros w. reflexivity. Qed.

Lemma preserves_await {A} (r : result A) : preserves_config (@await World A r).
Proof. intros w. reflexivity. Qed.

Lemma preserves_reraise {A} (r : raised) : preserves_config (@reraise World A r).
Proof. intros w. destruct r; reflexivity. Qed.

Lemma preserves_lift {A} (m : M World A) :
  preserves_config m → preserves_config (lift m).
Proof. intros Hm w. rewrite lift_run. exact (Hm w). Qed.

Lemma preserves_coro_bind {A B} (m : Coro World A) (k : A → Coro World B) :
  preserves_config m → (∀ a, preserves_config (k a)) →
  preserves_config (coro_bind m k).
Proof.
  intros Hm Hk w. unfold coro_bind. specialize (Hm w).
  destruct (m w) as [[[a|e]|b] w']; simpl in Hm.
  - rewrite (Hk a w'). exact Hm.
  - exact Hm.
  - exact Hm.
Qed.

Lemma preserves_try_Exception {A} (body : Coro World A) (handler : exn → Coro World A) :
  preserves_config body → (∀ e, preserves_config (handler e)) →
  preserves_config (try_except_Exception body handler).
Proof.
  intros Hb Hh w. unfold try_except_Exception. specialize (Hb w).
  destruct (body w) as [[[a|e]|b] w']; simpl in Hb.
  - exact Hb.
  - rewrite (Hh e w'). exact Hb.
  - exact Hb.
Qed.

#[local] Hint Resolve preserves_ret preserves_raise preserves_call preserves_gets
  preserves_emit preserves_load_global preserves_coro_ret preserves_await
  preserves_reraise : frame.

Ltac frame :=
  repeat first
    [ apply preserves_bind; [| intros ?]
    | apply preserves_try; [| intros ?]
    | apply preserves_coro_bind; [| intros ?]
    | apply preserves_try_Exception; [| intros ?]
    | apply preserves_lift
    | apply preserves_ret
    | apply preserves_coro_ret
    | progress auto with frame
    | match goal with
      | |- preserves_config (match ?x with _ => _ end) => destruct x
      | |- preserves_config (if ?b then _ else _) => destruct b
      | |- preserves_config (let '(_, _) := ?p in _) => destruct p
      end ].

Lemma preserves_logger_error (msg : string) : preserves_config (logger_error msg).
Proof. unfold logger_error. frame. Qed.

Lemma preserves_logger_warning (msg : string) : preserves_config (logger_warning msg).
Proof. unfold logger_warning. frame. Qed.

Lemma preserves_update_costs (u : option Usage) : preserves_config (_update_costs u).
Proof. unfold _update_costs. frame. Qed.

Lemma preserves_log_llm_stream (s : string) : preserves_config (log_llm_stream s).
Proof. unfold log_llm_stream. frame. Qed.

#[local] Hint Resolve preserves_logger_error preserves_logger_warning
  preserves_update_costs preserves_log_llm_stream : frame.

Lemma preserves_calc_usage (self : t) (messages : list message) (response : string) :
  preserves_config (_calc_usage self messages response).
Proof. unfold _calc_usage. frame. Qed.

Lemma preserves_await_acompletion (kwargs : gmap string pyval) :
  preserves_config (await_acompletion kwargs).
Proof. unfold await_acompletion. frame. Qed.

#[local] Hint Resolve preserves_calc_usage preserves_await_acompletion : frame.

Lemma preserves_achat_completion (self : t) (messages : list message) (timeout : Z) :
  preserves_config (_achat_completion self messages timeout).
Proof. unfold _achat_completion. frame. Qed.

Lemma preserves_consume (chunk : Chunk) (acc : list string * option Usage) :
  preserves_config (consume chunk acc).
Proof. unfold consume. destruct acc. frame. Qed.

Lemma preserves_async_for (chunks : list Chunk) (acc : list string * option Usage) :
  preserves_config (async_for chunks acc).
Proof.
  revert acc. induction chunks as [|c chunks IH]; intros acc; simpl.
  - frame.
  - apply preserves_bind; [apply preserves_consume | exact IH].
Qed.

#[local] Hint Resolve preserves_achat_completion preserves_async_for : frame.

Lemma preserves_achat_completion_stream (self : t) (messages : list message)
    (timeout : Z) :
  preserves_config (_achat_completion_stream self messages timeout).
Proof. unfold _achat_completion_stream. frame. Qed.

#[local] Hint Resolve preserves_achat_completion_stream : frame.

Lemma preserves_acompletion (self : t) (messages : list message) (timeout : Z) :
  preserves_config (acompletion_ self messages timeout).
Proof. unfold acompletion_. frame. Qed.

Lemma preserves_acompletion_text (self : t) (messages : list message)
    (stream : bool) (timeout : Z) :
  preserves_config (acompletion_text self messages stream timeout).
Proof. unfold acompletion_text. frame. Qed.

Lemma init_config (w : World) :
  config (snd (__init__ w)) =
    match fst (__init__ w) with
    | Return self => LLMConfig.set_model (model self) (config w)
    | Raise _ => config w
    end.
Proof.
  destruct LITELLM_AVAILABLE eqn:Hl.
  2: { unfold __init__. rewrite Hl. reflexivity. }
  rewrite (init_run w Hl).
  destruct (truthy (LLMConfig.model (config w))) eqn:Ht.
  2: { rewrite (init_client_default w Ht). reflexivity. }
  destruct (LLMConfig.model (config w)) as [m|] eqn:Hm; [|discriminate Ht].
  destruct (startswith m "github_copilot/") eqn:Hs.
  - rewrite (init_client_prefixed w m Hm Hs). destruct (decide _); simpl.
    + rewrite <- Hm. symmetry. apply set_model_same.
    + reflexivity.
  - rewrite (init_client_bare w m Hm Ht Hs). destruct (decide _); reflexivity.
Qed.

(** C2, as the code has it: construction writes the resolved model id to
    the model field of the configuration object it was given and to no
    other field, leaves the object alone when it fails, and leaves it
    alone when the model already carries the prefix; after construction no
    method writes to it. *)
Theorem C2_config_frame (w : World) (self : t) (messages : list message)
    (response : string) (stream : bool) (timeout : Z) :
  config (snd (__init__ w)) =
    match fst (__init__ w) with
    | Return self => LLMConfig.set_model (model self) (config w)
    | Raise _ => config w
    end
  ∧ (∀ m, LLMConfig.model (config w) = Some m →
          startswith m "github_copilot/" = true →
          config (snd (__init__ w)) = config w)
  ∧ preserves_config (_calc_usage self messages response)
  ∧ preserves_config (_achat_completion self messages timeout)
  ∧ preserves_config (acompletion_ self messages timeout)
  ∧ preserves_config (_achat_completion_stream self messages timeout)
  ∧ preserves_config (acompletion_text self messages stream timeout).
Proof.
  split; [apply init_config|].
  split.
  { intros m Hm Hs. rewrite init_config.
    destruct LITELLM_AVAILABLE eqn:Hl.
    2: { unfold __init__. rewrite Hl. reflexivity. }
    rewrite (init_run w Hl), (init_client_prefixed w m Hm Hs).
    destruct (decide _); simpl; [|reflexivity].
    rewrite <- Hm. apply set_model_same. }
  split; [apply preserves_calc_usage|].
  split; [apply preserves_achat_completion|].
  split; [apply preserves_acompletion|].
  split; [apply preserves_achat_completion_stream|].
  apply preserves_acompletion_text.
Qed.

End Frame.

(** C2 as stated fails: constructing the adapter from a configuration whose
    model is "gpt-4o" leaves "github_copilot/gpt-4o" in that configuration. *)
Lemma C2_model_field_rewritten :
  let w := Demo.world (Demo.cfg (Some "gpt-4o")) in
  let w' := snd (GitHubCopilotLLM.__init__ (H := Demo.streaming []) w) in
  LLMConfig.model (GitHubCopilotLLM.config w) = Some "gpt-4o"
  ∧ LLMConfig.model (GitHubCopilotLLM.config w') = Some "github_copilot/gpt-4o"
  ∧ GitHubCopilotLLM.config w' ≠ GitHubCopilotLLM.config w.
Proof.
  split; [reflexivity | split; [reflexivity | discriminate]].
Qed.

(** C2 on a model that carries the prefix: the configuration is untouched. *)
Lemma C2_config_frame_witness :
  let w := Demo.world (Demo.cfg (Some "github_copilot/gpt-4o")) in
  GitHubCopilotLLM.config (snd (GitHubCopilotLLM.__init__ (H := Demo.streaming []) w))
  = GitHubCopilotLLM.config w.
Proof.
  intros w.
  exact (proj1 (proj2 (C2_config_frame (H := Demo.streaming []) w Demo.self Demo.hi
                         "" false 0))
           "github_copilot/gpt-4o" eq_refl eq_refl).
Defined.

(** ** Token usage computed locally *)

Section LocalUsage.
Import GitHubCopilotLLM CopilotSpec.
Context `{Collaborators}.

(** [_calc_usage], case by case. *)
Lemma calc_usage_run (self : t) (messages : list message) (response : string)
    (w : World) :
  _calc_usage self messages response w =
    if negb (LLMConfig.calc_usage (config w)) then (Return zero_usage, w)
    else
      let failed (e : exn) :=
        (Return zero_usage,
         logged w [LoggerWarning ("Usage calculation failed: " +:+ str e)]) in
      match pricing_plan self with
      | None =>
          failed (AttributeError "'NoneType' object has no attribute 'startswith'")
      | Some p =>
          match count_message_tokens messages (_normalize_model_name p) with
          | Raise e => failed e
          | Return prompt =>
              match count_output_tokens response (_normalize_model_name p) with
              | Raise e => failed e
              | Return completion =>
                  (Return {| prompt_tokens := prompt;
                             completion_tokens := completion;
                             total_tokens := prompt + completion |}, w)
              end
          end
      end.
Proof.
  unfold _calc_usage. rewrite bind_run. cbn [gets].
  destruct (LLMConfig.calc_usage (config w)); cbn [negb]; [|reflexivity].
  unfold try_except.
  destruct (pricing_plan self) as [p|]; repeat run_step.
  - destruct (count_message_tokens messages (_normalize_model_name p)) as [n|e];
      repeat run_step.
    + destruct (count_output_tokens response (_normalize_model_name p)) as [k|e];
        repeat run_step.
      * reflexivity.
      * rewrite logger_warning_run. reflexivity.
    + rewrite logger_warning_run. reflexivity.
  - rewrite logger_warning_run. reflexivity.
Qed.

Lemma zero_usage_well_formed : well_formed zero_usage.
Proof. unfold well_formed, zero_usage. simpl. lia. Qed.

Lemma calc_usage_total (self : t) (messages : list message) (response : string)
    (w : World) :
  ∃ u evs, _calc_usage self messages response w = (Return u, logged w evs).
Proof.
  rewrite calc_usage_run.
  destruct (negb _); [exists zero_usage, []; by rewrite logged_nil|].
  cbv zeta. destruct (pricing_plan self) as [p|]; [|by eexists _, _].
  destruct (count_message_tokens _ _) as [n|e]; [|by eexists _, _].
  destruct (count_output_tokens _ _) as [k|e]; [|by eexists _, _].
  eexists _, []. by rewrite logged_nil.
Qed.

Lemma calc_usage_sum (self : t) (messages : list message)
    (response : string) (w w' : World) (u : Usage) :
  _calc_usage self messages response w = (Return u, w') →
  total_tokens u = prompt_tokens u + completion_tokens u.
Proof.
  rewrite calc_usage_run.
  destruct (negb _); [intros [= <- _]; reflexivity|].
  cbv zeta. destruct (pricing_plan self) as [p|]; [|intros [= <- _]; reflexivity].
  destruct (count_message_tokens _ _) as [n|e]; [|intros [= <- _]; reflexivity].
  destruct (count_output_tokens _ _) as [k|e]; intros [= <- _]; reflexivity.
Qed.

Lemma calc_usage_nonneg (self : t) (messages : list message)
    (response : string) (w w' : World) (u : Usage) :
  counters_count →
  _calc_usage self messages response w = (Return u, w') →
  0 ≤ prompt_tokens u ∧ 0 ≤ completion_tokens u.
Proof.
  intros [Hmsg Hout]. rewrite calc_usage_run.
  destruct (negb _); [intros [= <- _]; simpl; lia|].
  cbv zeta. destruct (pricing_plan self) as [p|]; [|intros [= <- _]; simpl; lia].
  destruct (count_message_tokens _ _) as [n|e] eqn:Hn; [|intros [= <- _]; simpl; lia].
  destruct (count_output_tokens _ _) as [k|e] eqn:Hk; [|intros [= <- _]; simpl; lia].
  intros [= <- _]. simpl. split; [eapply Hmsg, Hn | eapply Hout, Hk].
Qed.

Lemma calc_usage_well_formed (self : t) (messages : list message)
    (response : string) (w w' : World) (u : Usage) :
  counters_count →
  _calc_usage self messages response w = (Return u, w') → well_formed u.
Proof.
  intros Hcount Hu. unfold well_formed.
  destruct (calc_usage_nonneg _ _ _ _ _ _ Hcount Hu) as [Hp Hc].
  split; [exact Hp | split; [exact Hc | eapply calc_usage_sum, Hu]].
Qed.

End LocalUsage.

(** ** The streaming call *)

Section Streaming.
Import GitHubCopilotLLM CopilotSpec.
Context `{Collaborators}.

(** [_calc_usage] logs nothing, or the one warning. *)
Lemma calc_usage_events (self : t) (messages : list message) (response : string)
    (w : World) :
  ∃ u warnings,
    _calc_usage self messages response w = (Return u, logged w warnings)
    ∧ (warnings = [] ∨ ∃ msg, warnings = [LoggerWarning msg]).
Proof.
  rewrite calc_usage_run.
  destruct (negb _).
  { exists zero_usage, []. rewrite logged_nil. split; [reflexivity | by left]. }
  cbv zeta. destruct (pricing_plan self) as [p|].
  2: { eexists _, _. split; [reflexivity | right; by eexists]. }
  destruct (count_message_tokens _ _) as [n|e].
  2: { eexists _, _. split; [reflexivity | right; by eexists]. }
  destruct (count_output_tokens _ _) as [k|e].
  2: { eexists _, _. split; [reflexivity | right; by eexists]. }
  eexists _, []. rewrite logged_nil. split; [reflexivity | by left].
Qed.


Lemma consume_run (c : Chunk) (collected : list string) (usage : option Usage)
    (w : World) :
  readable c = true →
  consume c (collected, usage) w =
    (Return (collected ++ fragments [c],
             match usage_beside_choice c with
             | Some u => Some u
             | None => usage
             end),
     logged w (LogLLMStream <$> fragments [c])).
Proof.
  unfold readable, consume, fragments, fragment, usage_beside_choice.
  cbn [omap list_omap].
  destruct (chunk_choices c) as [[|choice l]|].
  - intros _. cbn. by rewrite app_nil_r, logged_nil.
  - destruct (choice_delta choice) as [| |d]; [| discriminate |]; intros _.
    + cbn. by rewrite app_nil_r, logged_nil.
    + destruct (delta_content d) as [[|a s]|]; cbn;
        by rewrite ?app_nil_r, ?logged_nil.
  - intros _. cbn. by rewrite app_nil_r, logged_nil.
Qed.

(** A first choice whose [delta] is [None] stops the loop. *)
Lemma consume_unreadable (c : Chunk) (acc : list string * option Usage) (w : World) :
  readable c = false → consume c acc w = (Raise delta_is_none, w).
Proof.
  unfold readable, consume. destruct acc as [collected usage].
  destruct (chunk_choices c) as [[|choice l]|]; try discriminate.
  destruct (choice_delta choice) as [| |d]; try discriminate. reflexivity.
Qed.

Lemma fragments_cons (c : Chunk) (chunks : list Chunk) :
  fragments (c :: chunks) = fragments [c] ++ fragments chunks.
Proof. unfold fragments. cbn. destruct (fragment c); reflexivity. Qed.

Lemma fragments_nonempty (chunks : list Chunk) :
  Forall (λ s, s ≠ "") (fragments chunks).
Proof.
  induction chunks as [|c chunks IH]; [constructor|].
  rewrite fragments_cons. apply Forall_app. split; [|exact IH].
  unfold fragments, fragment. cbn [omap list_omap].
  destruct (chunk_choices c) as [[|choice l]|]; try constructor.
  destruct (choice_delta choice) as [| |d]; try constructor.
  destruct (delta_content d) as [[|a s]|]; cbn; repeat constructor. discriminate.
Qed.

Lemma kept_usage_cons (c : Chunk) (chunks : list Chunk) (usage : option Usage) :
  from_option Some
    (match usage_beside_choice c with Some u => Some u | None => usage end)
    (kept_usage chunks)
  = from_option Some usage (kept_usage (c :: chunks)).
Proof.
  unfold kept_usage. cbn [omap list_omap].
  destruct (usage_beside_choice c) as [u|]; [|reflexivity].
  rewrite last_cons. destruct (last _); reflexivity.
Qed.

Lemma async_for_run (chunks : list Chunk) (collected : list string)
    (usage : option Usage) (w : World) :
  Forall (λ c, readable c = true) chunks →
  async_for chunks (collected, usage) w =
    (Return (collected ++ fragments chunks, from_option Some usage (kept_usage chunks)),
     logged w (LogLLMStream <$> fragments chunks)).
Proof.
  intros Hall. revert collected usage w.
  induction Hall as [|c chunks Hc _ IH]; intros collected usage w.
  - cbn. by rewrite app_nil_r, logged_nil.
  - cbn [async_for]. rewrite bind_run, (consume_run _ _ _ _ Hc), IH.
    rewrite logged_app, <- fmap_app, <- app_assoc, <- fragments_cons.
    by rewrite kept_usage_cons.
Qed.

(** The loop on any chunks: it goes through them all, or it stops at the
    first that is not readable, having streamed the fragments before it. *)
Lemma async_for_outcome (chunks : list Chunk) (collected : list string)
    (usage : option Usage) (w : World) :
  (Forall (λ c, readable c = true) chunks)
  ∨ ∃ good bad rest,
      chunks = good ++ bad :: rest
      ∧ Forall (λ c, readable c = true) good
      ∧ readable bad = false
      ∧ async_for chunks (collected, usage) w
        = (Raise delta_is_none, logged w (LogLLMStream <$> fragments good)).
Proof.
  revert collected usage w.
  induction chunks as [|c chunks IH]; intros collected usage w; [left; constructor|].
  destruct (readable c) eqn:Hc.
  - destruct (IH (collected ++ fragments [c])
                (match usage_beside_choice c with Some u => Some u | None => usage end)
                (logged w (LogLLMStream <$> fragments [c])))
      as [Hall | (good & bad & rest & -> & Hgood & Hbad & Hrun)].
    + left. by constructor.
    + right. exists (c :: good), bad, rest.
      split; [reflexivity|]. split; [by constructor|]. split; [exact Hbad|].
      cbn [async_for app]. rewrite bind_run, (consume_run _ _ _ _ Hc), Hrun.
      by rewrite logged_app, <- fmap_app, <- fragments_cons.
  - right. exists [], c, chunks.
    split; [reflexivity|]. split; [constructor|]. split; [exact Hc|].
    cbn [async_for app]. rewrite bind_run, (consume_unreadable _ _ _ Hc).
    by rewrite logged_nil.
Qed.

(** The streaming call on a stream that is read to its normal end. *)
Lemma stream_run (self : t) (messages : list message) (timeout : Z) (w : World)
    (chunks : list Chunk) :
  acompletion (stream_kwargs self w messages timeout) = Return (Stream chunks None) →
  Forall (λ c, readable c = true) chunks →
  let text := join "" (fragments chunks) in
  let w1 := drained self w messages timeout chunks in
  ∃ u warnings,
    _achat_completion_stream self messages timeout w
    = (Return text, logged w1 (warnings ++ [UpdateCosts (Some u)]))
    ∧ match kept_usage chunks with
      | Some kept => u = kept ∧ warnings = []
      | None =>
          _calc_usage self messages text w1 = (Return u, logged w1 warnings)
          ∧ (warnings = [] ∨ ∃ msg, warnings = [LoggerWarning msg])
      end.
Proof.
  intros Hc Hall. cbv zeta.
  unfold _achat_completion_stream. rewrite lift_bind_run. cbn [gets].
  fold (stream_kwargs self w messages timeout).
  unfold try_except_Exception, await_acompletion. repeat coro_step.
  rewrite emit_run. repeat coro_step. rewrite Hc. repeat coro_step.
  rewrite (async_for_run _ _ _ _ Hall). repeat coro_step.
  unfold log_llm_stream. rewrite emit_run, !logged_app. repeat coro_step.
  cbn [app]. fold newline. fold (drained self w messages timeout chunks).
  unfold _update_costs.
  destruct (kept_usage chunks) as [kept|]; cbn [from_option]; repeat coro_step.
  - exists kept, []. rewrite emit_run. split; [reflexivity | by split].
  - destruct (calc_usage_events self messages (join "" (fragments chunks))
                (drained self w messages timeout chunks)) as (u & warnings & Hu & Hw).
    exists u, warnings. rewrite Hu. repeat coro_step.
    rewrite emit_run, logged_app. split; [reflexivity | by split].
Qed.

(** The text a streaming call returns. *)
Lemma stream_text (self : t) (messages : list message) (timeout : Z) (w : World)
    (chunks : list Chunk) :
  acompletion (stream_kwargs self w messages timeout) = Return (Stream chunks None) →
  Forall (λ c, readable c = true) chunks →
  fst (_achat_completion_stream self messages timeout w)
  = Return (join "" (fragments chunks)).
Proof.
  intros Hc Hall.
  destruct (stream_run _ _ _ _ _ Hc Hall) as (u & warnings & -> & _). reflexivity.
Qed.

(** The usage of a chunk that has a choice is the one recorded. *)
Lemma stream_records_kept_usage (self : t) (messages : list message)
    (timeout : Z) (w : World) (chunks : list Chunk) (u : Usage) :
  acompletion (stream_kwargs self w messages timeout) = Return (Stream chunks None) →
  Forall (λ c, readable c = true) chunks →
  kept_usage chunks = Some u →
  _achat_completion_stream self messages timeout w =
    (Return (join "" (fragments chunks)),
     logged (drained self w messages timeout chunks) [UpdateCosts (Some u)]).
Proof.
  intros Hc Hall Hu.
  destruct (stream_run _ _ _ _ _ Hc Hall) as (u' & warnings & -> & Hk).
  rewrite Hu in Hk. destruct Hk as [-> ->]. reflexivity.
Qed.


(** When every chunk that carries a usage has a choice as well, what the
    loop keeps is what the stream supplied. *)
Lemma kept_usage_carried (chunks : list Chunk) :
  Forall (λ c, usage_beside_choice c = chunk_usage c) chunks →
  kept_usage chunks = carried_usage chunks.
Proof.
  unfold kept_usage, carried_usage. intros Hall. f_equal.
  induction Hall as [|c chunks Hc _ IH]; [reflexivity|].
  cbn [omap list_omap]. rewrite Hc, IH. reflexivity.
Qed.

(** A chunk without choices adds nothing to what the loop keeps, whatever
    usage it carries. *)
Lemma kept_usage_without_choice (chunks : list Chunk) (c : Chunk) :
  chunk_choices c = Some [] ∨ chunk_choices c = None →
  kept_usage (chunks ++ [c]) = kept_usage chunks
  ∧ fragments (chunks ++ [c]) = fragments chunks.
Proof.
  intros Hc. unfold kept_usage, fragments. rewrite !omap_app. cbn [omap list_omap].
  unfold usage_beside_choice at 2. unfold fragment at 2.
  destruct Hc as [-> | ->]; by rewrite !app_nil_r.
Qed.

(** So a stream that ends with such a chunk has the usage computed locally,
    though the stream supplied one. *)
Lemma stream_drops_usage_without_choice (self : t) (messages : list message)
    (timeout : Z) (w : World) (chunks : list Chunk) (u : Usage) :
  let final := {| chunk_choices := Some []; chunk_usage := Some u |} in
  acompletion (stream_kwargs self w messages timeout)
  = Return (Stream (chunks ++ [final]) None) →
  Forall (λ c, readable c = true) chunks →
  kept_usage chunks = None →
  carried_usage (chunks ++ [final]) = Some u
  ∧ ∃ local warnings,
      _calc_usage self messages (join "" (fragments chunks))
        (drained self w messages timeout chunks)
      = (Return local, logged (drained self w messages timeout chunks) warnings)
      ∧ _achat_completion_stream self messages timeout w
        = (Return (join "" (fragments chunks)),
           logged (drained self w messages timeout chunks)
             (warnings ++ [UpdateCosts (Some local)])).
Proof.
  intros final Hc Hall Hkept. split.
  { unfold carried_usage. rewrite omap_app. cbn. apply last_snoc. }
  destruct (kept_usage_without_choice chunks final (or_introl eq_refl)) as [Hk Hf].
  assert (Hall' : Forall (λ c, readable c = true) (chunks ++ [final])).
  { apply Forall_app. split; [exact Hall | by repeat constructor]. }
  destruct (stream_run _ _ _ _ _ Hc Hall') as (local & warnings & Hrun & Hu).
  rewrite Hk, Hkept in Hu. destruct Hu as [Hu _].
  unfold drained in Hrun, Hu. rewrite Hf in Hrun, Hu.
  exists local, warnings. split; [exact Hu | exact Hrun].
Qed.

End Streaming.

(** ** Claims on the streaming call *)

Section StreamingClaims.
Import GitHubCopilotLLM CopilotSpec.
Context `{Collaborators}.



End StreamingClaims.

(** C1 fails on a stream whose usage comes in a chunk without choices, as
    the final chunk of a completion stream does: the text returned is
    "Hello", but the usage of the chunk is dropped and the one recorded is
    the locally computed one. *)
Theorem C1_usage_of_choiceless_chunk_dropped :
  let chunks := Demo.hello ++ [Demo.usage_chunk] in
  let w := Demo.world (Demo.cfg (Some "github_copilot/gpt-4o")) in
  let run :=
    GitHubCopilotLLM._achat_completion_stream (H := Demo.streaming chunks)
      Demo.self Demo.hi 0 w in
  CopilotSpec.carried_usage chunks = Some Demo.usage_5_2
  ∧ fst run = Return "Hello"
  ∧ last (GitHubCopilotLLM.log (snd run))
    = Some (GitHubCopilotLLM.UpdateCosts
              (Some {| GitHubCopilotLLM.prompt_tokens := 3;
                       GitHubCopilotLLM.completion_tokens := 5;
                       GitHubCopilotLLM.total_tokens := 8 |}))
  ∧ fst (GitHubCopilotLLM._calc_usage (H := Demo.streaming chunks)
           Demo.self Demo.hi "Hello" w)
    = Return {| GitHubCopilotLLM.prompt_tokens := 3;
                GitHubCopilotLLM.completion_tokens := 5;
                GitHubCopilotLLM.total_tokens := 8 |}.
Proof. vm_compute. repeat split. Qed.

(** The same stream with the usage beside a choice: the usage is recorded. *)
Lemma usage_beside_choice_recorded :
  let last_chunk :=
    {| GitHubCopilotLLM.chunk_choices :=
         Some [ {| GitHubCopilotLLM.choice_delta :=
                     GitHubCopilotLLM.Has {| GitHubCopilotLLM.delta_content := None |} |} ];
       GitHubCopilotLLM.chunk_usage := Some Demo.usage_5_2 |} in
  let chunks := Demo.hello ++ [last_chunk] in
  let run :=
    GitHubCopilotLLM._achat_completion_stream (H := Demo.streaming chunks)
      Demo.self Demo.hi 0 (Demo.world (Demo.cfg (Some "github_copilot/gpt-4o"))) in
  fst run = Return "Hello"
  ∧ last (GitHubCopilotLLM.log (snd run))
    = Some (GitHubCopilotLLM.UpdateCosts (Some Demo.usage_5_2)).
Proof. vm_compute. split; reflexivity. Qed.




(** ** The request payload *)

Section Payload.
Import GitHubCopilotLLM CopilotSpec.
Context `{Collaborators}.

(** [kwargs.update(extra_kwargs)], guarded or not, is a left-biased union. *)
Lemma cons_kwargs_merge (self : t) (cfg : LLMConfig.t) (messages : list message)
    (timeout : Z) (extra_kwargs : gmap string pyval) :
  _cons_kwargs self cfg messages timeout extra_kwargs
  = extra_kwargs ∪ _cons_kwargs self cfg messages timeout ∅.
Proof.
  unfold _cons_kwargs. rewrite map_size_empty. cbn [Nat.eqb].
  destruct (Nat.eqb (size extra_kwargs) 0) eqn:Hsize; [|reflexivity].
  apply Nat.eqb_eq, map_size_empty_iff in Hsize. subst extra_kwargs.
  by rewrite (left_id_L ∅ (∪)).
Qed.

Lemma cons_kwargs_lookup (self : t) (cfg : LLMConfig.t) (messages : list message)
    (timeout : Z) (extra_kwargs : gmap string pyval) (key : string) :
  _cons_kwargs self cfg messages timeout extra_kwargs !! key
  = match extra_kwargs !! key with
    | Some v => Some v
    | None => _cons_kwargs self cfg messages timeout ∅ !! key
    end.
Proof.
  rewrite cons_kwargs_merge, lookup_union.
  destruct (extra_kwargs !! key), (_cons_kwargs self cfg messages timeout ∅ !! key);
    reflexivity.
Qed.

Ltac payload :=
  unfold _cons_kwargs; rewrite map_size_empty; cbn [Nat.eqb];
  repeat match goal with
         | |- context [negb (PrimFloat.eqb ?x ?y)] => destruct (PrimFloat.eqb x y); cbn [negb]
         | |- context [LLMConfig.stop ?c] => destruct (LLMConfig.stop c) as [[|? ?]|]
         end;
  by simplify_map_eq.

Lemma payload_top_p (self : t) (cfg : LLMConfig.t) (messages : list message)
    (timeout : Z) :
  _cons_kwargs self cfg messages timeout ∅ !! "top_p"
  = if PrimFloat.eqb (LLMConfig.top_p cfg) 1%float then None
    else Some (PFloat (LLMConfig.top_p cfg)).
Proof. payload. Qed.

Lemma payload_frequency_penalty (self : t) (cfg : LLMConfig.t)
    (messages : list message) (timeout : Z) :
  _cons_kwargs self cfg messages timeout ∅ !! "frequency_penalty"
  = if PrimFloat.eqb (LLMConfig.frequency_penalty cfg) 0%float then None
    else Some (PFloat (LLMConfig.frequency_penalty cfg)).
Proof. payload. Qed.

Lemma payload_presence_penalty (self : t) (cfg : LLMConfig.t)
    (messages : list message) (timeout : Z) :
  _cons_kwargs self cfg messages timeout ∅ !! "presence_penalty"
  = if PrimFloat.eqb (LLMConfig.presence_penalty cfg) 0%float then None
    else Some (PFloat (LLMConfig.presence_penalty cfg)).
Proof. payload. Qed.

Lemma payload_stop (self : t) (cfg : LLMConfig.t) (messages : list message)
    (timeout : Z) :
  _cons_kwargs self cfg messages timeout ∅ !! "stop"
  = match LLMConfig.stop cfg with
    | Some (s :: l) => Some (PStrs (s :: l))
    | Some [] | None => None
    end.
Proof. payload. Qed.

Lemma payload_headers (self : t) (cfg : LLMConfig.t) (messages : list message)
    (timeout : Z) :
  _cons_kwargs self cfg messages timeout ∅ !! "extra_headers"
  = Some (PHeaders extra_headers).
Proof. payload. Qed.

(** C5, as the code has it: the payload assembled before the overrides
    leaves out top_p, frequency_penalty and presence_penalty exactly when
    they compare equal to 1.0, 0.0 and 0.0, leaves out stop exactly when it
    is absent or empty, and holds the two editor headers; the payload
    returned maps every key of the overrides to the override and every
    other key as the assembled payload does. *)
Theorem C5_payload (self : t) (cfg : LLMConfig.t) (messages : list message)
    (timeout : Z) (extra_kwargs : gmap string pyval) :
  let assembled := _cons_kwargs self cfg messages timeout ∅ in
  assembled !! "top_p"
    = (if PrimFloat.eqb (LLMConfig.top_p cfg) 1%float then None
       else Some (PFloat (LLMConfig.top_p cfg)))
  ∧ assembled !! "frequency_penalty"
    = (if PrimFloat.eqb (LLMConfig.frequency_penalty cfg) 0%float then None
       else Some (PFloat (LLMConfig.frequency_penalty cfg)))
  ∧ assembled !! "presence_penalty"
    = (if PrimFloat.eqb (LLMConfig.presence_penalty cfg) 0%float then None
       else Some (PFloat (LLMConfig.presence_penalty cfg)))
  ∧ assembled !! "stop"
    = match LLMConfig.stop cfg with
      | Some (s :: l) => Some (PStrs (s :: l))
      | Some [] | None => None
      end
  ∧ assembled !! "extra_headers" = Some (PHeaders extra_headers)
  ∧ extra_headers !! "Editor-Version" = Some "vscode/1.85.0"
  ∧ extra_headers !! "Copilot-Integration-Id" = Some "vscode-chat"
  ∧ ∀ key,
      _cons_kwargs self cfg messages timeout extra_kwargs !! key
      = match extra_kwargs !! key with
        | Some v => Some v
        | None => assembled !! key
        end.
Proof.
  cbv zeta.
  split; [apply payload_top_p|].
  split; [apply payload_frequency_penalty|].
  split; [apply payload_presence_penalty|].
  split; [apply payload_stop|].
  split; [apply payload_headers|].
  split; [reflexivity|]. split; [reflexivity|].
  intros key. apply cons_kwargs_lookup.
Qed.

(** C6: [_get_max_tokens] returns the entry of the token-limit table for
    the resolved model id when there is one, and the configured limit
    otherwise. *)
Theorem C6_get_max_tokens (self : t) (cfg : LLMConfig.t) (messages : list message)
    (id : string) :
  model self = Some id →
  (∀ limit, TOKEN_MAX !! id = Some limit →
            _get_max_tokens self cfg messages = limit)
  ∧ (TOKEN_MAX !! id = None →
     _get_max_tokens self cfg messages = LLMConfig.max_token cfg).
Proof.
  intros Hid. unfold _get_max_tokens. rewrite Hid. cbn.
  split; [intros limit ->|intros ->]; reflexivity.
Qed.

End Payload.

(** C5 as stated fails: an override of extra_headers displaces the two
    editor headers, an override of top_p puts the field in the payload
    although the configuration holds the neutral 1.0, and an empty list of
    stop sequences, which is not an absent one, is left out. *)
Lemma C5_overrides_and_empty_stop :
  let cfg := Demo.cfg (Some "github_copilot/gpt-4o") in
  let empty_stop := LLMConfig.mk (Some "github_copilot/gpt-4o") None 4096 0%float
                      1%float 0%float 0%float (Some []) None true 600 in
  GitHubCopilotLLM._cons_kwargs (H := Demo.streaming []) Demo.self cfg Demo.hi 0
    (<["extra_headers" := PNone]> ∅) !! "extra_headers" = Some PNone
  ∧ PrimFloat.eqb (LLMConfig.top_p cfg) 1%float = true
  ∧ GitHubCopilotLLM._cons_kwargs (H := Demo.streaming []) Demo.self cfg Demo.hi 0
      (<["top_p" := PFloat 1%float]> ∅) !! "top_p" = Some (PFloat 1%float)
  ∧ LLMConfig.stop empty_stop ≠ None
  ∧ GitHubCopilotLLM._cons_kwargs (H := Demo.streaming []) Demo.self empty_stop
      Demo.hi 0 ∅ !! "stop" = None.
Proof.
  cbv zeta.
  split; [vm_compute; reflexivity|]. split; [reflexivity|].
  split; [vm_compute; reflexivity|]. split; [discriminate|].
  vm_compute; reflexivity.
Qed.

(** C6 with a table that has the model, and with an empty one. *)
Lemma C6_get_max_tokens_witness :
  GitHubCopilotLLM._get_max_tokens (H := Demo.streaming []) Demo.self
    (Demo.cfg (Some "github_copilot/gpt-4o")) Demo.hi = 128000
  ∧ GitHubCopilotLLM._get_max_tokens (H := Demo.failing_counter []) Demo.self
      (Demo.cfg (Some "github_copilot/gpt-4o")) Demo.hi = 4096.
Proof.
  split.
  - apply (proj1 (C6_get_max_tokens (H := Demo.streaming []) Demo.self
                    (Demo.cfg (Some "github_copilot/gpt-4o")) Demo.hi
                    "github_copilot/gpt-4o" eq_refl)).
    reflexivity.
  - apply (proj2 (C6_get_max_tokens (H := Demo.failing_counter []) Demo.self
                    (Demo.cfg (Some "github_copilot/gpt-4o")) Demo.hi
                    "github_copilot/gpt-4o" eq_refl)).
    reflexivity.
Defined.

(** ** The search-assistant adapter *)

Section Sydney.
Import GitHubLLM SessionSpec.
Context `{Collaborators}.

Lemma session_emit_run (ev : event) (w : World) : emit ev w = (Return (), logged w [ev]).
Proof. reflexivity. Qed.

Lemma session_logged_app (w : World) (a b : list event) :
  logged (logged w a) b = logged w (a ++ b).
Proof. unfold logged. simpl. rewrite app_assoc. reflexivity. Qed.

Lemma logger_unbound : "logger" ∉ module_globals.
Proof. apply (bool_decide_unpack _). reflexivity. Qed.

(** The handler of [_update_costs] does not log: it raises. *)
Lemma session_logger_error_run (msg : string) (w : World) :
  logger_error msg w = (Raise logger_undefined, w).
Proof.
  unfold logger_error, load_global. run_step.
  destruct (decide ("logger" ∈ module_globals)) as [Hin|_].
  - destruct (logger_unbound Hin).
  - reflexivity.
Qed.

(** [_update_costs], case by case. *)
Lemma update_costs_run (usage : gmap string Z) (w : World) :
  _update_costs usage w =
    if LLMConfig.calc_usage (config w) then
      match cost_manager w, usage !! "prompt_tokens", usage !! "completion_tokens" with
      | Some cm, Some p, Some c =>
          match update_cost cm p c (LLMConfig.model (config w)) with
          | Return cm' =>
              (Return (), {| config := config w; cost_manager := Some cm';
                             log := log w |})
          | Raise _ => (Raise logger_undefined, w)
          end
      | _, _, _ => (Raise logger_undefined, w)
      end
    else (Return (), w).
Proof.
  unfold _update_costs. run_step. cbn [gets].
  destruct (LLMConfig.calc_usage (config w)); [|reflexivity].
  unfold try_except, getitem. repeat run_step.
  destruct (cost_manager w) as [cm|]; repeat run_step.
  2: { apply session_logger_error_run. }
  destruct (usage !! "prompt_tokens") as [p|]; repeat run_step.
  2: { apply session_logger_error_run. }
  destruct (usage !! "completion_tokens") as [c|]; repeat run_step.
  2: { apply session_logger_error_run. }
  destruct (update_cost cm p c (LLMConfig.model (config w))) as [cm'|e];
    repeat run_step.
  - reflexivity.
  - apply session_logger_error_run.
Qed.

(** With usage calculation on and no cost manager set, [_update_costs]
    raises whatever the usage. *)
Lemma update_costs_unset_manager (usage : gmap string Z) (w : World) :
  LLMConfig.calc_usage (config w) = true → cost_manager w = None →
  _update_costs usage w = (Raise logger_undefined, w).
Proof. intros Hc Hm. rewrite update_costs_run, Hc, Hm. reflexivity. Qed.

Lemma last_content_snoc (init : list message) (m : message) (w : World) :
  last_content (init ++ [m]) w = (Return (content m), w).
Proof. unfold last_content. rewrite last_snoc. reflexivity. Qed.

(** C9: on a message sequence that ends with [m], the non-streaming call
    asks the client once, with the content of [m] as the prompt, inside one
    session, and returns the text of the client's answer as it is. *)
Theorem C9_acompletion_text (init : list message) (m : message) (timeout : Z)
    (w : World) (text : string) (metadata : pyval) :
  sydney_aenter (environ !! "BING_COOKIES") = Return () →
  sydney_ask (content m) = Return (text, metadata) →
  acompletion_text (init ++ [m]) false timeout w
  = (Return text,
     logged w [SessionEnter (environ !! "BING_COOKIES"); Ask (content m); SessionExit]).
Proof.
  intros Henter Hask. unfold acompletion_text, async_with_sydney, try_except.
  repeat run_step. rewrite session_emit_run. repeat run_step.
  rewrite Henter. repeat run_step.
  rewrite last_content_snoc. repeat run_step.
  rewrite session_emit_run. repeat run_step.
  rewrite Hask. repeat run_step.
  rewrite session_emit_run, !session_logged_app. reflexivity.
Qed.

(** What the client raises reaches the caller, the session left. *)
Lemma acompletion_text_propagates (init : list message) (m : message)
    (timeout : Z) (w : World) (e : exn) :
  sydney_aenter (environ !! "BING_COOKIES") = Return () →
  sydney_ask (content m) = Raise e →
  acompletion_text (init ++ [m]) false timeout w
  = (Raise e,
     logged w [SessionEnter (environ !! "BING_COOKIES"); Ask (content m); SessionExit]).
Proof.
  intros Henter Hask. unfold acompletion_text, async_with_sydney, try_except.
  repeat run_step. rewrite session_emit_run. repeat run_step.
  rewrite Henter. repeat run_step.
  rewrite last_content_snoc. repeat run_step.
  rewrite session_emit_run. repeat run_step.
  rewrite Hask. repeat run_step.
  rewrite session_emit_run, !session_logged_app. reflexivity.
Qed.

(** The empty sequence is not guarded: indexing it raises. *)
Lemma acompletion_text_empty (stream : bool) (timeout : Z) (w : World) :
  sydney_aenter (environ !! "BING_COOKIES") = Return () →
  fst (acompletion_text [] stream timeout w)
  = Raise (IndexError "list index out of range").
Proof.
  intros Henter.
  destruct stream; unfold acompletion_text, _achat_completion_stream,
    async_with_sydney, try_except;
    repeat run_step; rewrite session_emit_run; repeat run_step;
    rewrite Henter; repeat run_step; reflexivity.
Qed.

End Sydney.

(** C4 fails on an adapter as its constructor leaves it, with usage
    calculation switched on: the cost manager is [None], the attribute error
    is caught, and the handler raises a [NameError], for the module never
    binds [logger]. *)
Theorem C4_update_costs_raises :
  let w0 := Demo.github_world (Demo.cfg (Some "gpt-4.1")) in
  let w := snd (GitHubLLM.__init__ w0) in
  GitHubLLM.cost_manager w = None
  ∧ LLMConfig.calc_usage (GitHubLLM.config w) = true
  ∧ GitHubLLM._update_costs (H := Demo.sydney) Demo.usage_dict w
    = (Raise (NameError "name 'logger' is not defined"), w).
Proof. vm_compute. repeat split. Qed.

(** C9 on the one-message conversation "Hello, world!". *)
Lemma C9_acompletion_text_witness :
  let w := Demo.github_world (Demo.cfg (Some "gpt-4.1")) in
  GitHubLLM.acompletion_text (H := Demo.sydney)
    ([] ++ [Message "user" "Hello, world!"]) false 600 w
  = (Return "Hello, world! I am a language model.",
     SessionSpec.logged w
       [GitHubLLM.SessionEnter None; GitHubLLM.Ask "Hello, world!";
        GitHubLLM.SessionExit]).
Proof.
  intros w.
  exact (C9_acompletion_text (H := Demo.sydney) [] (Message "user" "Hello, world!")
           600 w "Hello, world! I am a language model." PNone eq_refl eq_refl).
Defined.

(** * Further properties *)

(** ** Construction of the LiteLLM adapter, as a whole *)

Section ConstructionMore.
Import GitHubCopilotLLM CopilotSpec.
Context `{Collaborators}.

Lemma default_model_supported :
  replace "github_copilot/gpt-4o" "github_copilot/" "" ∈ supported_models.
Proof. apply (bool_decide_unpack _). reflexivity. Qed.

Lemma supported_is_bare (name : string) :
  name ∈ supported_models →
  truthy (Some name) = true ∧ startswith name "github_copilot/" = false.
Proof.
  unfold supported_models. rewrite !elem_of_cons, elem_of_nil.
  intros [->|[->|[->|[->|[]]]]]; split; reflexivity.
Qed.

Lemma constructed_again (w : World) (c : LLMConfig.t) :
  constructed (constructed w c) c = constructed w c.
Proof.
  unfold constructed. cbn [config litellm_proxy log].
  destruct (truthy (LLMConfig.proxy c)); reflexivity.
Qed.

(** Every successful construction, whatever branch it took. *)
Lemma init_success (w w' : World) (self : t) :
  __init__ w = (Return self, w') →
  ∃ id,
    self = {| model := Some id;
              pricing_plan := or_else (LLMConfig.pricing_plan (config w)) (Some id);
              cost_manager := None |}
    ∧ w' = constructed w (LLMConfig.set_model (Some id) (config w))
    ∧ startswith id "github_copilot/" = true
    ∧ replace id "github_copilot/" "" ∈ supported_models.
Proof.
  destruct LITELLM_AVAILABLE eqn:Hl.
  2: { unfold __init__. rewrite Hl. discriminate. }
  rewrite (init_run w Hl).
  destruct (truthy (LLMConfig.model (config w))) eqn:Ht.
  2: { rewrite (init_client_default w Ht). intros [= <- <-].
       exists "github_copilot/gpt-4o".
       split; [reflexivity|]. split; [reflexivity|].
       split; [reflexivity | exact default_model_supported]. }
  destruct (LLMConfig.model (config w)) as [m|] eqn:Hm; [|discriminate Ht].
  destruct (startswith m "github_copilot/") eqn:Hs.
  - rewrite (init_client_prefixed w m Hm Hs).
    destruct (decide _) as [Hin|_]; [|discriminate].
    intros [= <- <-]. exists m.
    split; [reflexivity|]. split; [|split; [exact Hs | exact Hin]].
    rewrite <- Hm, set_model_same. reflexivity.
  - rewrite (init_client_bare w m Hm Ht Hs).
    destruct (decide _) as [Hin|_]; [|discriminate].
    intros [= <- <-]. exists ("github_copilot/" +:+ m).
    split; [reflexivity|]. split; [reflexivity|].
    split; [apply startswith_app|].
    rewrite (replace_prefixed_supported m Hin). exact Hin.
Qed.

(** Every failed construction. *)
Lemma init_failure (w w' : World) (e : exn) :
  __init__ w = (Raise e, w') →
  w' = w
  ∧ ((LITELLM_AVAILABLE = false ∧ ∃ msg, e = ImportError msg)
     ∨ (LITELLM_AVAILABLE = true
        ∧ ∃ name, e = unsupported name ∧ name ∉ supported_models)).
Proof.
  destruct LITELLM_AVAILABLE eqn:Hl.
  2: { unfold __init__. rewrite Hl. intros [= <- <-].
       split; [reflexivity|]. left. split; [reflexivity|]. eexists. reflexivity. }
  rewrite (init_run w Hl).
  destruct (truthy (LLMConfig.model (config w))) eqn:Ht.
  2: { rewrite (init_client_default w Ht). discriminate. }
  destruct (LLMConfig.model (config w)) as [m|] eqn:Hm; [|discriminate Ht].
  destruct (startswith m "github_copilot/") eqn:Hs.
  - rewrite (init_client_prefixed w m Hm Hs).
    destruct (decide _) as [|Hout]; [discriminate|].
    intros [= <- <-]. split; [reflexivity|]. right. split; [reflexivity|].
    eexists. split; [reflexivity | exact Hout].
  - rewrite (init_client_bare w m Hm Ht Hs).
    destruct (decide _) as [|Hout]; [discriminate|].
    intros [= <- <-]. split; [reflexivity|]. right. split; [reflexivity|].
    eexists. split; [reflexivity | exact Hout].
Qed.

(** Where the model of a constructed adapter comes from: it is the
    configured one, or a supported name under the prefix. *)
Lemma init_success_origin (w w' : World) (self : t) (id : string) :
  __init__ w = (Return self, w') → model self = Some id →
  LLMConfig.model (config w) = Some id
  ∨ ∃ name, name ∈ supported_models ∧ id = "github_copilot/" +:+ name.
Proof.
  destruct LITELLM_AVAILABLE eqn:Hl.
  2: { unfold __init__. rewrite Hl. discriminate. }
  rewrite (init_run w Hl).
  destruct (truthy (LLMConfig.model (config w))) eqn:Ht.
  2: { rewrite (init_client_default w Ht). intros [= <- _] [= <-].
       right. exists "gpt-4o". split; [exact gpt_4o_supported | reflexivity]. }
  destruct (LLMConfig.model (config w)) as [m|] eqn:Hm; [|discriminate Ht].
  destruct (startswith m "github_copilot/") eqn:Hs.
  - rewrite (init_client_prefixed w m Hm Hs).
    destruct (decide _) as [Hin|_]; [|discriminate].
    intros [= <- _] [= <-]. by left.
  - rewrite (init_client_bare w m Hm Ht Hs).
    destruct (decide _) as [Hin|_]; [|discriminate].
    intros [= <- _] [= <-]. right. exists m. by split.
Qed.

(** X1: an adapter that was constructed carries a model under the
    "github_copilot/" prefix, the same the configuration now holds; with
    every occurrence of "github_copilot/" taken out, as the check of an
    already prefixed model does, it is one of the supported models; and
    when construction changed the configured model, its name with the one
    leading prefix removed, as [_normalize_model_name] removes it, is a
    supported model as well. The adapter has no cost manager,
    [litellm.set_verbose] is off and nothing was sent or logged. *)
Theorem X1_constructed_invariant (w w' : World) (self : t) :
  __init__ w = (Return self, w') →
  ∃ id,
    model self = Some id
    ∧ LLMConfig.model (config w') = Some id
    ∧ startswith id "github_copilot/" = true
    ∧ replace id "github_copilot/" "" ∈ supported_models
    ∧ (LLMConfig.model (config w) ≠ Some id →
       _normalize_model_name id ∈ supported_models)
    ∧ cost_manager self = None
    ∧ litellm_set_verbose w' = false
    ∧ log w' = log w.
Proof.
  intros Hinit.
  destruct (init_success w w' self Hinit) as (id & Hself & Hw' & Hs & Hin).
  exists id.
  assert (Hmodel : model self = Some id) by (by rewrite Hself).
  split; [exact Hmodel|]. split; [by rewrite Hw'|]. split; [exact Hs|].
  split; [exact Hin|]. split.
  { intros Hne.
    destruct (init_success_origin w w' self id Hinit Hmodel)
      as [Hsame | (name & Hname & ->)]; [destruct (Hne Hsame)|].
    by rewrite normalize_prefixed. }
  rewrite Hself, Hw'. repeat split.
Qed.

(** X2: a construction that fails has written nothing: the configuration,
    the [litellm] settings and the log are as before; it fails either for
    the missing library, with an [ImportError], or with the [ValueError]
    that names a model outside the supported ones; and without LiteLLM it
    fails whatever the configuration, before the model is looked at. *)
Theorem X2_failed_construction_writes_nothing (w : World) :
  (∀ e w', __init__ w = (Raise e, w') →
     w' = w
     ∧ ((LITELLM_AVAILABLE = false ∧ ∃ msg, e = ImportError msg)
        ∨ (LITELLM_AVAILABLE = true
           ∧ ∃ name, e = unsupported name ∧ name ∉ supported_models)))
  ∧ (LITELLM_AVAILABLE = false → ∃ msg, __init__ w = (Raise (ImportError msg), w)).
Proof.
  split; [intros e w'; apply init_failure|].
  intros Hl. unfold __init__. rewrite Hl. eexists. reflexivity.
Qed.

(** X3: constructing a second adapter from the configuration a first
    construction left behind succeeds, yields the same adapter and changes
    nothing. *)
Theorem X3_construction_idempotent (w w' : World) (self : t) :
  __init__ w = (Return self, w') → __init__ w' = (Return self, w').
Proof.
  intros Hinit.
  assert (Hl : LITELLM_AVAILABLE = true).
  { destruct LITELLM_AVAILABLE eqn:Hl; [reflexivity|].
    unfold __init__ in Hinit. rewrite Hl in Hinit. discriminate Hinit. }
  destruct (init_success w w' self Hinit) as (id & -> & -> & Hs & Hin).
  rewrite (resolves_prefixed
             (constructed w (LLMConfig.set_model (Some id) (config w))) id
             Hl eq_refl Hs Hin).
  cbn [config constructed]. rewrite constructed_again. reflexivity.
Qed.

(** X4: the prefix that construction puts before a supported bare name is
    the one [_normalize_model_name] takes off again: with no pricing plan
    configured, the name used for token counting is the name that was
    configured. *)
Theorem X4_prefix_round_trip (w : World) (name : string) :
  LITELLM_AVAILABLE = true →
  LLMConfig.model (config w) = Some name →
  name ∈ supported_models →
  truthy (LLMConfig.pricing_plan (config w)) = false →
  ∃ self w',
    __init__ w = (Return self, w')
    ∧ model self = Some ("github_copilot/" +:+ name)
    ∧ _normalize_model_name <$> pricing_plan self = Some name.
Proof.
  intros Hl Hm Hin Hp. destruct (supported_is_bare name Hin) as [Ht Hs].
  rewrite (init_run w Hl), (init_client_bare w name Hm Ht Hs).
  destruct (decide (name ∈ supported_models)) as [_|Hn]; [|destruct (Hn Hin)].
  eexists _, _. split; [reflexivity|]. split; [reflexivity|].
  cbn [pricing_plan]. unfold or_else. rewrite Hp. cbn [fmap option_fmap option_map].
  by rewrite normalize_prefixed.
Qed.

(** X5: a pricing plan that is configured is taken as it stands, neither
    checked against the supported models nor prefixed. *)
Theorem X5_pricing_plan_override (w w' : World) (self : t) (plan : string) :
  __init__ w = (Return self, w') →
  LLMConfig.pricing_plan (config w) = Some plan → truthy (Some plan) = true →
  pricing_plan self = Some plan
  ∧ LLMConfig.pricing_plan (config w') = Some plan.
Proof.
  intros Hinit Hp Ht. destruct (init_success w w' self Hinit) as (id & -> & -> & _ & _).
  cbn [pricing_plan config constructed]. unfold or_else. rewrite Hp, Ht.
  split; [reflexivity|]. destruct (config w); exact Hp.
Qed.

(** X6: after construction [litellm.proxy] is the configured proxy when
    there is one; an absent or empty proxy leaves the setting as it was. *)
Theorem X6_proxy_setting (w w' : World) (self : t) :
  __init__ w = (Return self, w') →
  litellm_proxy w' =
    if truthy (LLMConfig.proxy (config w)) then LLMConfig.proxy (config w)
    else litellm_proxy w.
Proof.
  intros Hinit. destruct (init_success w w' self Hinit) as (id & -> & -> & _ & _).
  cbn [litellm_proxy constructed]. destruct (config w); reflexivity.
Qed.

End ConstructionMore.

(** ** The requests *)

Section Requests.
Import GitHubCopilotLLM CopilotSpec Trace.
Context `{Collaborators}.

Ltac assembled :=
  unfold _cons_kwargs; rewrite map_size_empty; cbn [Nat.eqb];
  repeat match goal with
         | |- context [negb (PrimFloat.eqb ?x ?y)] =>
             destruct (PrimFloat.eqb x y); cbn [negb]
         | |- context [LLMConfig.stop ?c] => destruct (LLMConfig.stop c) as [[|? ?]|]
         end.

(** The assembled payload has no key outside [payload_keys]. *)
Lemma assembled_keys (self : t) (cfg : LLMConfig.t) (messages : list message)
    (timeout : Z) (key : string) :
  is_Some (_cons_kwargs self cfg messages timeout ∅ !! key) → key ∈ payload_keys.
Proof.
  intros [v Hv]. revert Hv.
  assembled; intros Hv;
    repeat (apply lookup_insert_Some in Hv as [[<- _]|[_ Hv]];
            [apply (bool_decide_unpack _); reflexivity|]);
    by rewrite lookup_empty in Hv.
Qed.

(** X7: before the overrides are merged, the payload holds the model of the
    adapter, the messages as they were given, the resolved token limit, the
    configured temperature and the timeout, and it has no key besides these,
    the headers and the four optional fields: no streaming flag, no key of
    its own invention. *)
Theorem X7_payload_fields (self : t) (cfg : LLMConfig.t) (messages : list message)
    (timeout : Z) :
  let assembled := _cons_kwargs self cfg messages timeout ∅ in
  assembled !! "model" = Some (of_optional (model self))
  ∧ assembled !! "messages" = Some (PMessages messages)
  ∧ assembled !! "max_tokens" = Some (PInt (_get_max_tokens self cfg messages))
  ∧ assembled !! "temperature" = Some (PFloat (LLMConfig.temperature cfg))
  ∧ assembled !! "timeout" = Some (PInt (get_timeout cfg timeout))
  ∧ ∀ key, is_Some (assembled !! key) → key ∈ payload_keys.
Proof.
  cbv zeta.
  split; [assembled; by simplify_map_eq|].
  split; [assembled; by simplify_map_eq|].
  split; [assembled; by simplify_map_eq|].
  split; [assembled; by simplify_map_eq|].
  split; [assembled; by simplify_map_eq|].
  intros key. apply assembled_keys.
Qed.

(** X8: the request of a streaming call is the request of a non-streaming
    call with the same arguments, plus the flag [stream = True]; the
    non-streaming request has no such key. *)
Theorem X8_streaming_request (self : t) (w : World) (messages : list message)
    (timeout : Z) :
  stream_kwargs self w messages timeout !! "stream" = Some (PBool true)
  ∧ completion_kwargs self w messages timeout !! "stream" = None
  ∧ ∀ key, key ≠ "stream" →
      stream_kwargs self w messages timeout !! key
      = completion_kwargs self w messages timeout !! key.
Proof.
  unfold stream_kwargs, completion_kwargs. split; [|split].
  - rewrite cons_kwargs_lookup. by simplify_map_eq.
  - destruct (_cons_kwargs self (config w) messages
                (get_timeout (config w) timeout) ∅ !! "stream") eqn:Hk; [|reflexivity].
    assert (Hin : "stream" ∈ payload_keys).
    { eapply assembled_keys. rewrite Hk. eauto. }
    apply (bool_decide_pack _) in Hin. destruct Hin.
  - intros key Hne. rewrite cons_kwargs_lookup. by simplify_map_eq.
Qed.

End Requests.

(** ** The calls, whatever the client does *)

Section Calls.
Import GitHubCopilotLLM CopilotSpec Trace.
Context `{Collaborators}.

Lemma log_logged (w : World) (evs : list event) : log (logged w evs) = log w ++ evs.
Proof. reflexivity. Qed.

Lemma sink_streamed (l : list string) : sink (LogLLMStream <$> l) = l.
Proof. induction l as [|s l IH]; [reflexivity|]. cbn. f_equal. exact IH. Qed.

Lemma requests_streamed (l : list string) : requests (LogLLMStream <$> l) = [].
Proof. induction l as [|s l IH]; [reflexivity | exact IH]. Qed.

Lemma cost_updates_streamed (l : list string) : cost_updates (LogLLMStream <$> l) = [].
Proof. induction l as [|s l IH]; [reflexivity | exact IH]. Qed.

Lemma errors_streamed (l : list string) : errors (LogLLMStream <$> l) = [].
Proof. induction l as [|s l IH]; [reflexivity | exact IH]. Qed.

(** The streaming call up to the end of the loop. *)
Lemma stream_fails (self : t) (messages : list message) (timeout : Z) (w : World) :
  let kwargs := stream_kwargs self w messages timeout in
  let failed (streamed : list string) (e : exn) : result string * World :=
    (Raise e,
     logged w (Acompletion kwargs :: (LogLLMStream <$> streamed)
                 ++ [LoggerError ("GitHub Copilot streaming error: " +:+ str e)])) in
  let interrupted (streamed : list string) (b : base_exception)
      : result string * World :=
    (Interrupted b, logged w (Acompletion kwargs :: (LogLLMStream <$> streamed))) in
  match acompletion kwargs with
  | Done (Raise e) => _achat_completion_stream self messages timeout w = failed [] e
  | Interrupted b =>
      _achat_completion_stream self messages timeout w = interrupted [] b
  | Done (Return (Completion _)) =>
      _achat_completion_stream self messages timeout w
      = failed [] (TypeError "'async for' requires an object with __aiter__ method")
  | Done (Return (Stream chunks failure)) =>
      (∀ good bad rest,
         chunks = good ++ bad :: rest →
         Forall (λ c, readable c = true) good → readable bad = false →
         _achat_completion_stream self messages timeout w
         = failed (fragments good) delta_is_none)
      ∧ (Forall (λ c, readable c = true) chunks →
         match failure with
         | Some (Exception e) =>
             _achat_completion_stream self messages timeout w
             = failed (fragments chunks) e
         | Some (BaseException b) =>
             _achat_completion_stream self messages timeout w
             = interrupted (fragments chunks) b
         | None => True
         end)
  end.
Proof.
  cbv zeta. unfold _achat_completion_stream. rewrite lift_bind_run. cbn [gets].
  fold (stream_kwargs self w messages timeout).
  unfold try_except_Exception, await_acompletion. repeat coro_step.
  rewrite emit_run. repeat coro_step.
  destruct (acompletion (stream_kwargs self w messages timeout))
    as [[[r|chunks failure]|e]|b]; repeat coro_step.
  - rewrite logger_error_run. repeat coro_step. by rewrite logged_app.
  - split.
    + intros good bad rest -> Hgood Hbad.
      destruct (async_for_outcome (good ++ bad :: rest) [] None
                  (logged w [Acompletion (stream_kwargs self w messages timeout)]))
        as [Hall | (good' & bad' & rest' & Heq & Hgood' & Hbad' & Hrun)].
      { apply Forall_app in Hall as [_ Hall]. apply Forall_cons in Hall as [Hr _].
        congruence. }
      assert (good' = good) as ->.
      { clear Hrun. revert good' Heq Hgood'.
        induction Hgood as [|c good Hc _ IH]; intros [|c' good'] Heq Hgood'.
        - reflexivity.
        - injection Heq as <- _. apply Forall_cons in Hgood' as [Hc' _]. congruence.
        - injection Heq as -> _. congruence.
        - injection Heq as <- Heq. apply Forall_cons in Hgood' as [_ Hgood'].
          f_equal. by apply IH. }
      rewrite Hrun. repeat coro_step. rewrite logger_error_run. repeat coro_step.
      by rewrite !logged_app.
    + intros Hall. destruct failure as [[e|b]|]; [| |exact I];
        rewrite (async_for_run _ _ _ _ Hall); repeat coro_step.
      * rewrite logger_error_run. repeat coro_step. by rewrite !logged_app.
      * by rewrite !logged_app.
  - rewrite logger_error_run. repeat coro_step. by rewrite logged_app.
  - reflexivity.
Qed.

(** Every run of the streaming call is of one of three shapes. *)
Lemma stream_outcome (self : t) (messages : list message) (timeout : Z) (w : World) :
  let kwargs := stream_kwargs self w messages timeout in
  (∃ pieces warnings u,
     _achat_completion_stream self messages timeout w
     = (Return (join "" pieces),
        logged w (Acompletion kwargs :: (LogLLMStream <$> pieces)
                    ++ [LogLLMStream newline] ++ warnings ++ [UpdateCosts (Some u)]))
     ∧ Forall (λ s, s ≠ "") pieces
     ∧ (warnings = [] ∨ ∃ msg, warnings = [LoggerWarning msg]))
  ∨ (∃ e pieces,
       _achat_completion_stream self messages timeout w
       = (Raise e,
          logged w (Acompletion kwargs :: (LogLLMStream <$> pieces)
                      ++ [LoggerError ("GitHub Copilot streaming error: " +:+ str e)])))
  ∨ (∃ b pieces,
       _achat_completion_stream self messages timeout w
       = (Interrupted b,
          logged w (Acompletion kwargs :: (LogLLMStream <$> pieces)))).
Proof.
  cbv zeta. pose proof (stream_fails self messages timeout w) as Hf. cbv zeta in Hf.
  destruct (acompletion (stream_kwargs self w messages timeout))
    as [[[r|chunks failure]|e]|b] eqn:Hc.
  - right. left. eexists _, []. exact Hf.
  - destruct Hf as [Hbad Hgood].
    destruct (async_for_outcome chunks [] None w)
      as [Hall | (good & bad & rest & Heq & Hg & Hb & _)].
    + specialize (Hgood Hall). destruct failure as [[e|b]|].
      * right. left. eexists _, _. exact Hgood.
      * right. right. eexists _, _. exact Hgood.
      * left. destruct (stream_run _ _ _ _ _ Hc Hall) as (u & warnings & Hrun & Hu).
        exists (fragments chunks), warnings, u.
        split; [|split; [apply fragments_nonempty|]].
        -- rewrite Hrun. unfold drained. rewrite logged_app. cbn [app].
           by rewrite <- !app_assoc.
        -- destruct (kept_usage chunks); [destruct Hu as [_ ->]; by left | apply Hu].
    + right. left. eexists _, _. exact (Hbad good bad rest Heq Hg Hb).
  - right. left. eexists _, []. exact Hf.
  - right. right. eexists _, []. exact Hf.
Qed.

(** [_achat_completion], whatever the client does. *)
Lemma achat_completion_run (self : t) (messages : list message) (timeout : Z)
    (w : World) :
  _achat_completion self messages timeout w =
    let kwargs := completion_kwargs self w messages timeout in
    let failed (e : exn) : result ModelResponse * World :=
      (Raise e,
       logged w [Acompletion kwargs;
                 LoggerError ("GitHub Copilot API error: " +:+ str e)]) in
    match acompletion kwargs with
    | Done (Return (Completion r)) =>
        (Return r, logged w [Acompletion kwargs; UpdateCosts (usage r)])
    | Done (Return (Stream _ _)) =>
        failed (AttributeError "stream object has no attribute 'usage'")
    | Done (Raise e) => failed e
    | Interrupted b => (Interrupted b, logged w [Acompletion kwargs])
    end.
Proof.
  cbv zeta. unfold _achat_completion. rewrite lift_bind_run. cbn [gets].
  fold (completion_kwargs self w messages timeout).
  unfold try_except_Exception, await_acompletion. repeat coro_step.
  rewrite emit_run. repeat coro_step.
  destruct (acompletion (completion_kwargs self w messages timeout))
    as [[[r|chunks failure]|e]|b]; repeat coro_step.
  - unfold _update_costs. rewrite emit_run. repeat coro_step. by rewrite logged_app.
  - rewrite logger_error_run. repeat coro_step. by rewrite logged_app.
  - rewrite logger_error_run. repeat coro_step. by rewrite logged_app.
  - reflexivity.
Qed.

Lemma acompletion_text_run (self : t) (messages : list message) (timeout : Z)
    (w : World) :
  acompletion_text self messages false timeout w =
    match _achat_completion self messages (get_timeout (config w) timeout) w with
    | (Done (Return r), w') => (Done (Return (get_choice_text r)), w')
    | (Done (Raise e), w') => (Done (Raise e), w')
    | (Interrupted b, w') => (Interrupted b, w')
    end.
Proof.
  unfold acompletion_text. rewrite lift_bind_run. cbn [gets]. rewrite coro_bind_run.
  destruct (_achat_completion _ _ _ _) as [[[r|e]|b] w']; reflexivity.
Qed.

(** X9: the text-only call returns the content of the first choice of the
    client's response, no other choice being read, and the empty string
    when the response has no choice or the first has no content; the usage
    the response reports, be it [None], is handed on once and as it is. *)
Theorem X9_completion_text (self : t) (messages : list message) (timeout : Z)
    (w : World) (r : ModelResponse) :
  let kwargs := completion_kwargs self w messages (get_timeout (config w) timeout) in
  acompletion kwargs = Return (Completion r) →
  acompletion_text self messages false timeout w
  = (Return (get_choice_text r), logged w [Acompletion kwargs; UpdateCosts (usage r)])
  ∧ match choices r with
    | Some (first :: _) => get_choice_text r = default "" (message_content first)
    | Some [] | None => get_choice_text r = ""
    end.
Proof.
  cbv zeta. intros Hc. split.
  - rewrite acompletion_text_run, achat_completion_run. cbv zeta. rewrite Hc.
    reflexivity.
  - unfold get_choice_text. destruct (choices r) as [[|first l]|]; try reflexivity.
    destruct (message_content first) as [[|a s]|]; reflexivity.
Qed.

(** X10: an [Exception] that the completion client raises reaches the
    caller of a non-streaming call unchanged, after one error record that
    carries its [str]; an exception outside [Exception] that the request
    ends with, [asyncio.CancelledError] among them, passes the handler by
    and leaves no error record. In neither case is a usage handed on. *)
Theorem X10_completion_failure (self : t) (messages : list message) (timeout : Z)
    (w : World) :
  let kwargs := completion_kwargs self w messages timeout in
  (∀ e, acompletion kwargs = Raise e →
        _achat_completion self messages timeout w
        = (Raise e,
           logged w [Acompletion kwargs;
                     LoggerError ("GitHub Copilot API error: " +:+ str e)]))
  ∧ (∀ b, acompletion kwargs = Interrupted b →
        _achat_completion self messages timeout w
        = (Interrupted b, logged w [Acompletion kwargs])).
Proof.
  cbv zeta. split.
  - intros e Hc. rewrite achat_completion_run. cbv zeta. rewrite Hc. reflexivity.
  - intros b Hc. rewrite achat_completion_run. cbv zeta. rewrite Hc. reflexivity.
Qed.

(** X11: a streaming call that does not get to the end of its stream. An
    [Exception] of the client, at the request or after the chunks, is
    raised again after one error record that carries its [str]; an
    exception outside [Exception], [asyncio.CancelledError] among them, at
    the request or after the chunks, passes the handler by and leaves no
    error record; and a chunk whose first choice has [None] for its [delta]
    raises an [AttributeError] at that chunk, which is recorded and raised
    again as any [Exception], the chunks after it not being read. In every
    case the fragments read before were already sent to the live sink, the
    closing newline is not sent, no usage is computed or handed on, and the
    text is not returned. *)
Theorem X11_stream_breaks (self : t) (messages : list message) (timeout : Z)
    (w : World) :
  let kwargs := stream_kwargs self w messages timeout in
  let failed (streamed : list string) (e : exn) : result string * World :=
    (Raise e,
     logged w (Acompletion kwargs :: (LogLLMStream <$> streamed)
                 ++ [LoggerError ("GitHub Copilot streaming error: " +:+ str e)])) in
  let interrupted (streamed : list string) (b : base_exception)
      : result string * World :=
    (Interrupted b, logged w (Acompletion kwargs :: (LogLLMStream <$> streamed))) in
  (∀ e, acompletion kwargs = Raise e →
        _achat_completion_stream self messages timeout w = failed [] e)
  ∧ (∀ b, acompletion kwargs = Interrupted b →
        _achat_completion_stream self messages timeout w = interrupted [] b)
  ∧ (∀ chunks e, acompletion kwargs = Return (Stream chunks (Some (Exception e))) →
        Forall (λ c, readable c = true) chunks →
        _achat_completion_stream self messages timeout w = failed (fragments chunks) e)
  ∧ (∀ chunks b,
        acompletion kwargs = Return (Stream chunks (Some (BaseException b))) →
        Forall (λ c, readable c = true) chunks →
        _achat_completion_stream self messages timeout w
        = interrupted (fragments chunks) b)
  ∧ (∀ good bad rest failure,
        acompletion kwargs = Return (Stream (good ++ bad :: rest) failure) →
        Forall (λ c, readable c = true) good → readable bad = false →
        _achat_completion_stream self messages timeout w
        = failed (fragments good) delta_is_none).
Proof.
  cbv zeta. pose proof (stream_fails self messages timeout w) as Hf. cbv zeta in Hf.
  split; [|split; [|split; [|split]]].
  - intros e Hc. rewrite Hc in Hf. exact Hf.
  - intros msg Hc. rewrite Hc in Hf. exact Hf.
  - intros chunks e Hc Hall. rewrite Hc in Hf. exact (proj2 Hf Hall).
  - intros chunks msg Hc Hall. rewrite Hc in Hf. exact (proj2 Hf Hall).
  - intros good bad rest failure Hc Hgood Hbad. rewrite Hc in Hf.
    exact (proj1 Hf good bad rest eq_refl Hgood Hbad).
Qed.

Lemma one_request (self : t) (messages : list message) (timeout : Z) (w : World) :
  requests (log (snd (_achat_completion_stream self messages timeout w)))
  = requests (log w) ++ [stream_kwargs self w messages timeout]
  ∧ requests (log (snd (_achat_completion self messages timeout w)))
    = requests (log w) ++ [completion_kwargs self w messages timeout].
Proof.
  split.
  - destruct (stream_outcome self messages timeout w)
      as [(pieces & warnings & u & -> & _ & Hw)
         | [(e & pieces & ->) | (msg & pieces & ->)]];
      cbn [snd]; rewrite log_logged; unfold requests; rewrite omap_app; f_equal;
      cbn [omap list_omap]; f_equal; rewrite ?omap_app;
      fold (requests (LogLLMStream <$> pieces)); rewrite requests_streamed.
    + destruct Hw as [-> | [msg ->]]; reflexivity.
    + reflexivity.
    + reflexivity.
  - rewrite achat_completion_run. cbv zeta.
    destruct (acompletion _) as [[[r|chunks failure]|e]|b];
      cbn [snd]; rewrite log_logged; unfold requests; rewrite omap_app; reflexivity.
Qed.

(** X12: every call sends exactly one request, whether it returns or
    raises: there is no retry and no second attempt with another model. *)
Theorem X12_one_request (self : t) (messages : list message) (timeout : Z) (w : World) :
  requests (log (snd (_achat_completion_stream self messages timeout w)))
  = requests (log w) ++ [stream_kwargs self w messages timeout]
  ∧ requests (log (snd (_achat_completion self messages timeout w)))
    = requests (log w) ++ [completion_kwargs self w messages timeout].
Proof. apply one_request. Qed.

(** X13: a streaming call that returns has handed on exactly one usage and
    written no error record; one that raises an [Exception] has handed on
    none and has written exactly one error record, which carries the [str]
    of what was raised; one that ends with an exception outside
    [Exception], a cancellation among them, has handed on no usage and
    written no error record. *)
Theorem X13_accounting_follows_outcome (self : t) (messages : list message)
    (timeout : Z) (w : World) :
  let run := _achat_completion_stream self messages timeout w in
  match fst run with
  | Return _ =>
      (∃ u, cost_updates (log (snd run)) = cost_updates (log w) ++ [Some u])
      ∧ errors (log (snd run)) = errors (log w)
  | Raise e =>
      cost_updates (log (snd run)) = cost_updates (log w)
      ∧ errors (log (snd run))
        = errors (log w) ++ ["GitHub Copilot streaming error: " +:+ str e]
  | Interrupted _ =>
      cost_updates (log (snd run)) = cost_updates (log w)
      ∧ errors (log (snd run)) = errors (log w)
  end.
Proof.
  cbv zeta.
  destruct (stream_outcome self messages timeout w)
    as [(pieces & warnings & u & -> & _ & Hw)
       | [(e & pieces & ->) | (msg & pieces & ->)]];
    cbn [fst snd]; rewrite log_logged.
  - split.
    + exists u. unfold cost_updates. rewrite omap_app. f_equal.
      cbn [omap list_omap]. rewrite !omap_app.
      fold (cost_updates (LogLLMStream <$> pieces)). rewrite cost_updates_streamed.
      destruct Hw as [-> | [msg ->]]; reflexivity.
    + unfold errors. rewrite omap_app. cbn [omap list_omap]. rewrite !omap_app.
      fold (errors (LogLLMStream <$> pieces)). rewrite errors_streamed.
      destruct Hw as [-> | [msg ->]]; cbn; by rewrite app_nil_r.
  - split.
    + unfold cost_updates. rewrite omap_app. cbn [omap list_omap]. rewrite !omap_app.
      fold (cost_updates (LogLLMStream <$> pieces)). rewrite cost_updates_streamed.
      cbn. by rewrite app_nil_r.
    + unfold errors. rewrite omap_app. f_equal. cbn [omap list_omap].
      rewrite !omap_app. fold (errors (LogLLMStream <$> pieces)).
      rewrite errors_streamed. reflexivity.
  - split.
    + unfold cost_updates. rewrite omap_app. cbn [omap list_omap].
      fold (cost_updates (LogLLMStream <$> pieces)). rewrite cost_updates_streamed.
      by rewrite app_nil_r.
    + unfold errors. rewrite omap_app. cbn [omap list_omap].
      fold (errors (LogLLMStream <$> pieces)). rewrite errors_streamed.
      by rewrite app_nil_r.
Qed.

(** X14: what a streaming call returns is what it sent to the live sink:
    the text is the concatenation, in order, of the pieces sent, none of
    them empty, and the sink got the newline after the last of them. *)
Theorem X14_text_is_what_was_streamed (self : t) (messages : list message)
    (timeout : Z) (w w' : World) (text : string) :
  _achat_completion_stream self messages timeout w = (Return text, w') →
  ∃ pieces,
    sink (log w') = sink (log w) ++ pieces ++ [newline]
    ∧ text = join "" pieces
    ∧ Forall (λ s, s ≠ "") pieces.
Proof.
  destruct (stream_outcome self messages timeout w)
    as [(pieces & warnings & u & -> & Hne & Hw)
       | [(e & pieces & ->) | (msg & pieces & ->)]];
    [|discriminate|discriminate].
  intros [= <- <-]. exists pieces. split; [|split; [reflexivity | exact Hne]].
  rewrite log_logged. unfold sink. rewrite omap_app. f_equal.
  cbn [omap list_omap]. rewrite !omap_app.
  fold (sink (LogLLMStream <$> pieces)). rewrite sink_streamed.
  destruct Hw as [-> | [msg ->]]; reflexivity.
Qed.

(** X15: the text of a stream that is read to its normal end (no first
    choice of it has [None] for its [delta]) is the concatenation, in
    the order of the chunks, of the non-empty contents of the first choices:
    a chunk without choices, a choice without delta and an empty or absent
    content add nothing, and no choice after the first is read. *)
Theorem X15_stream_text (self : t) (messages : list message) (timeout : Z)
    (w : World) (chunks : list Chunk) :
  acompletion (stream_kwargs self w messages timeout) = Return (Stream chunks None) →
  Forall (λ c, readable c = true) chunks →
  fst (_achat_completion_stream self messages timeout w)
  = Return (join "" (fragments chunks)).
Proof. apply stream_text. Qed.

(** X16: when every chunk that carries a usage has a choice as well, and
    the stream is read to its normal end, the usage handed on is the one of
    the last chunk carrying one, and the token counters are not consulted:
    nothing is logged between the newline and the cost update. *)
Theorem X16_stream_usage (self : t) (messages : list message) (timeout : Z)
    (w : World) (chunks : list Chunk) (u : Usage) :
  acompletion (stream_kwargs self w messages timeout) = Return (Stream chunks None) →
  Forall (λ c, readable c = true) chunks →
  Forall (λ c, usage_beside_choice c = chunk_usage c) chunks →
  carried_usage chunks = Some u →
  _achat_completion_stream self messages timeout w
  = (Return (join "" (fragments chunks)),
     logged (drained self w messages timeout chunks) [UpdateCosts (Some u)]).
Proof.
  intros Hc Hread Hall Hu. apply (stream_records_kept_usage _ _ _ _ _ _ Hc Hread).
  rewrite (kept_usage_carried _ Hall). exact Hu.
Qed.

(** X17: switched off, [_calc_usage] returns the all-zero record without
    asking a counter or logging; switched on, it asks the two counters
    under the pricing plan with its leading "github_copilot/" removed. *)
Theorem X17_local_usage_key (self : t) (messages : list message) (response : string)
    (w : World) :
  (LLMConfig.calc_usage (config w) = false →
   _calc_usage self messages response w = (Return zero_usage, w))
  ∧ (∀ name prompt completion,
       LLMConfig.calc_usage (config w) = true →
       pricing_plan self = Some ("github_copilot/" +:+ name) →
       count_message_tokens messages name = Return prompt →
       count_output_tokens response name = Return completion →
       _calc_usage self messages response w
       = (Return {| prompt_tokens := prompt;
                    completion_tokens := completion;
                    total_tokens := prompt + completion |}, w)).
Proof.
  split.
  - intros Hoff. rewrite calc_usage_run, Hoff. reflexivity.
  - intros name prompt completion Hon Hp Hm Ho.
    rewrite calc_usage_run, Hon, Hp. cbn [negb]. cbv zeta.
    rewrite normalize_prefixed, Hm, Ho. reflexivity.
Qed.

Lemma cons_kwargs_timeout (self : t) (cfg : LLMConfig.t) (messages : list message)
    (timeout : Z) (extra_kwargs : gmap string pyval) :
  (∀ c t, get_timeout c (get_timeout c t) = get_timeout c t) →
  _cons_kwargs self cfg messages (get_timeout cfg timeout) extra_kwargs
  = _cons_kwargs self cfg messages timeout extra_kwargs.
Proof. intros Hidem. unfold _cons_kwargs. rewrite Hidem. reflexivity. Qed.

(** X25: with a [get_timeout] that resolves a resolved timeout to itself,
    the entry points agree: [acompletion] behaves as [_achat_completion],
    the text-only call sends the same request, and the streaming call sends
    that request with the streaming flag, however many times the timeout was
    resolved on the way. *)
Theorem X25_entry_points_agree (self : t) (messages : list message) (timeout : Z)
    (w : World) :
  (∀ c t, get_timeout c (get_timeout c t) = get_timeout c t) →
  acompletion_ self messages timeout w = _achat_completion self messages timeout w
  ∧ requests (log (snd (acompletion_text self messages false timeout w)))
    = requests (log w) ++ [completion_kwargs self w messages timeout]
  ∧ requests (log (snd (acompletion_text self messages true timeout w)))
    = requests (log w) ++ [<["stream" := PBool true]>
                             (completion_kwargs self w messages timeout)].
Proof.
  intros Hidem.
  assert (Hk : completion_kwargs self w messages (get_timeout (config w) timeout)
               = completion_kwargs self w messages timeout).
  { unfold completion_kwargs. rewrite Hidem. reflexivity. }
  split; [|split].
  - unfold acompletion_. rewrite lift_bind_run. cbn [gets].
    rewrite !achat_completion_run. cbv zeta. rewrite Hk. reflexivity.
  - rewrite acompletion_text_run.
    pose proof (proj2 (one_request self messages
                         (get_timeout (config w) timeout) w)) as Hr.
    rewrite Hk in Hr.
    destruct (_achat_completion _ _ _ _) as [[[r|e]|b] w']; exact Hr.
  - unfold acompletion_text.
    rewrite (proj1 (one_request self messages timeout w)). f_equal. f_equal.
    unfold stream_kwargs, completion_kwargs.
    rewrite cons_kwargs_merge. apply map_eq. intros key.
    rewrite lookup_union. destruct (decide (key = "stream")) as [->|Hne].
    + rewrite !lookup_insert_eq.
      by destruct (_cons_kwargs _ _ _ _ _ !! "stream").
    + rewrite !lookup_insert_ne, lookup_empty by done.
      by destruct (_cons_kwargs _ _ _ _ _ !! key).
Qed.

End Calls.

(** ** The search-assistant adapter, session by session *)

Section SydneyMore.
Import GitHubLLM SessionSpec Trace.
Context `{Collaborators}.

Lemma session_logged_nil (w : World) : logged w [] = w.
Proof. destruct w. unfold logged. simpl. rewrite app_nil_r. reflexivity. Qed.

(** [async with], whatever the body does. *)
Lemma async_with_run {A} (body : M World A) (w : World) :
  async_with_sydney body w =
    let bing_cookies := environ !! "BING_COOKIES" in
    match sydney_aenter bing_cookies with
    | Raise e => (Raise e, logged w [SessionEnter bing_cookies])
    | Return _ =>
        let '(r, w') := body (logged w [SessionEnter bing_cookies]) in
        (r, logged w' [SessionExit])
    end.
Proof.
  cbv zeta. unfold async_with_sydney, try_except. repeat run_step.
  rewrite session_emit_run. repeat run_step.
  destruct (sydney_aenter (environ !! "BING_COOKIES")) as [[]|e]; repeat run_step.
  - destruct (body (logged w [SessionEnter (environ !! "BING_COOKIES")]))
      as [[a|e] w']; repeat run_step; rewrite session_emit_run; reflexivity.
  - reflexivity.
Qed.

Lemma append_empty (s : string) : s +:+ "" = s.
Proof.
  induction s as [|c s IH]; [reflexivity|].
  change (String c (s +:+ "") = String c s). by rewrite IH.
Qed.

Lemma append_append (a b c : string) : (a +:+ b) +:+ c = a +:+ (b +:+ c).
Proof.
  induction a as [|x a IH]; [reflexivity|].
  change (String x ((a +:+ b) +:+ c) = String x (a +:+ (b +:+ c))). by rewrite IH.
Qed.

Lemma join_cons (t : string) (tokens : list string) :
  join "" (t :: tokens) = t +:+ join "" tokens.
Proof.
  destruct tokens as [|t' tokens]; [|reflexivity].
  change (t = t +:+ ""). by rewrite append_empty.
Qed.

(** [response += token] over the tokens is their concatenation. *)
Lemma fold_append (tokens : list string) (acc : string) :
  fold_left String.append tokens acc = acc +:+ join "" tokens.
Proof.
  revert acc. induction tokens as [|t tokens IH]; intros acc.
  - change (acc = acc +:+ ""). by rewrite append_empty.
  - cbn [fold_left]. rewrite IH, join_cons. apply append_append.
Qed.

(** Either mode of [acompletion_text], whatever the client does. *)
Lemma sydney_text_run (messages : list message) (stream : bool) (timeout : Z)
    (w : World) :
  acompletion_text messages stream timeout w =
    let bing_cookies := environ !! "BING_COOKIES" in
    let session (evs : list event) := logged w (SessionEnter bing_cookies :: evs) in
    match sydney_aenter bing_cookies with
    | Raise e => (Raise e, session [])
    | Return _ =>
        match last messages with
        | None => (Raise (IndexError "list index out of range"), session [SessionExit])
        | Some m =>
            if stream then
              let '(tokens, failure) := sydney_ask_stream (content m) in
              (match failure with
               | Some e => Raise e
               | None => Return (join "" tokens)
               end, session [AskStream (content m); SessionExit])
            else
              (match sydney_ask (content m) with
               | Return (text, _) => Return text
               | Raise e => Raise e
               end, session [Ask (content m); SessionExit])
        end
    end.
Proof.
  cbv zeta. unfold acompletion_text, _achat_completion_stream.
  destruct stream; rewrite async_with_run; cbv zeta;
    destruct (sydney_aenter (environ !! "BING_COOKIES")) as [[]|e]; try reflexivity;
    unfold last_content; destruct (last messages) as [m|]; repeat run_step;
    rewrite ?session_logged_app; try reflexivity;
    rewrite session_emit_run; repeat run_step.
  - destruct (sydney_ask_stream (content m)) as [tokens [e|]]; repeat run_step;
      rewrite !session_logged_app; [reflexivity|].
    rewrite fold_append. reflexivity.
  - destruct (sydney_ask (content m)) as [[text meta]|e]; repeat run_step;
      rewrite !session_logged_app; reflexivity.
Qed.

(** X18: in streaming mode the search-assistant adapter returns the tokens
    the client yields, concatenated in their order with nothing added or
    dropped, for the content of the last message as the prompt. *)
Theorem X18_sydney_stream_text (init : list message) (m : message) (timeout : Z)
    (w : World) (tokens : list string) :
  sydney_aenter (environ !! "BING_COOKIES") = Return () →
  sydney_ask_stream (content m) = (tokens, None) →
  acompletion_text (init ++ [m]) true timeout w
  = (Return (join "" tokens),
     logged w [SessionEnter (environ !! "BING_COOKIES"); AskStream (content m);
               SessionExit]).
Proof.
  intros Henter Hstream. rewrite sydney_text_run. cbv zeta.
  rewrite Henter, last_snoc, Hstream. reflexivity.
Qed.

(** X19: once the session is entered it is left, whatever happens inside:
    on a normal return, when the client raises, when the token stream breaks
    and when the message list is empty. The call puts at most one prompt,
    the content of the last message, and none when there is no message. *)
Theorem X19_session_released (messages : list message) (stream : bool) (timeout : Z)
    (w : World) :
  sydney_aenter (environ !! "BING_COOKIES") = Return () →
  let w' := snd (acompletion_text messages stream timeout w) in
  ∃ inside,
    log w' = log w ++ SessionEnter (environ !! "BING_COOKIES") :: inside ++ [SessionExit]
    ∧ prompts inside = content <$> option_list (last messages)
    ∧ prompts (log w') = prompts (log w) ++ prompts inside.
Proof.
  intros Henter. cbv zeta. rewrite sydney_text_run. cbv zeta. rewrite Henter.
  assert (Hp : ∀ inside,
             prompts (log w ++ SessionEnter (environ !! "BING_COOKIES")
                        :: inside ++ [SessionExit])
             = prompts (log w) ++ prompts inside).
  { intros inside. unfold prompts. rewrite omap_app. cbn [omap list_omap].
    rewrite omap_app. cbn. by rewrite app_nil_r. }
  destruct (last messages) as [m|].
  - destruct stream.
    + destruct (sydney_ask_stream (content m)) as [tokens failure].
      exists [AskStream (content m)]. cbn [snd]. split; [reflexivity|].
      split; [reflexivity | exact (Hp [AskStream (content m)])].
    + exists [Ask (content m)]. cbn [snd]. split; [reflexivity|].
      split; [reflexivity | exact (Hp [Ask (content m)])].
  - exists []. cbn [snd]. split; [reflexivity|]. split; [reflexivity | exact (Hp [])].
Qed.

(** X20: when the session cannot be entered, what entering raised reaches
    the caller; the client is asked nothing and no session is left, in
    either mode and whatever the messages. *)
Theorem X20_session_not_entered (messages : list message) (stream : bool)
    (timeout : Z) (w : World) (e : exn) :
  sydney_aenter (environ !! "BING_COOKIES") = Raise e →
  acompletion_text messages stream timeout w
  = (Raise e, logged w [SessionEnter (environ !! "BING_COOKIES")]).
Proof.
  intros Henter. rewrite sydney_text_run. cbv zeta. rewrite Henter. reflexivity.
Qed.

(** X21: an empty message list is not guarded: in either mode the call
    raises an [IndexError] inside the session, which is left, and the client
    is asked nothing. *)
Theorem X21_sydney_empty_messages (stream : bool) (timeout : Z) (w : World) :
  sydney_aenter (environ !! "BING_COOKIES") = Return () →
  acompletion_text [] stream timeout w
  = (Raise (IndexError "list index out of range"),
     logged w [SessionEnter (environ !! "BING_COOKIES"); SessionExit]).
Proof.
  intros Henter. rewrite sydney_text_run. cbv zeta. rewrite Henter. reflexivity.
Qed.

(** X22: when the token stream breaks, the streaming mode raises what the
    stream raised and the tokens received so far are lost; when the one-shot
    request raises, the non-streaming mode raises the same. The session is
    left in both cases. *)
Theorem X22_sydney_failure (init : list message) (m : message) (timeout : Z)
    (w : World) (e : exn) :
  sydney_aenter (environ !! "BING_COOKIES") = Return () →
  (∀ tokens, sydney_ask_stream (content m) = (tokens, Some e) →
     acompletion_text (init ++ [m]) true timeout w
     = (Raise e,
        logged w [SessionEnter (environ !! "BING_COOKIES"); AskStream (content m);
                  SessionExit]))
  ∧ (sydney_ask (content m) = Raise e →
     acompletion_text (init ++ [m]) false timeout w
     = (Raise e,
        logged w [SessionEnter (environ !! "BING_COOKIES"); Ask (content m);
                  SessionExit])).
Proof.
  intros Henter. split.
  - intros tokens Hs. rewrite sydney_text_run. cbv zeta.
    rewrite Henter, last_snoc, Hs. reflexivity.
  - intros Ha. rewrite sydney_text_run. cbv zeta.
    rewrite Henter, last_snoc, Ha. reflexivity.
Qed.

(** X23: with usage calculation switched off [_update_costs] does nothing,
    whatever the usage and the cost manager; switched on, with a cost manager
    set, both counts in the usage and an update that succeeds, the cost
    manager is updated once with the two counts and the configured model, and
    nothing else changes. *)
Theorem X23_update_costs (usage : gmap string Z) (w : World) :
  (LLMConfig.calc_usage (config w) = false → _update_costs usage w = (Return (), w))
  ∧ (∀ cm cm' p c,
       LLMConfig.calc_usage (config w) = true →
       cost_manager w = Some cm →
       usage !! "prompt_tokens" = Some p →
       usage !! "completion_tokens" = Some c →
       update_cost cm p c (LLMConfig.model (config w)) = Return cm' →
       _update_costs usage w
       = (Return (), {| config := config w; cost_manager := Some cm'; log := log w |})).
Proof.
  split.
  - intros Hoff. rewrite update_costs_run, Hoff. reflexivity.
  - intros cm cm' p c Hon Hcm Hp Hc Hu.
    rewrite update_costs_run, Hon, Hcm, Hp, Hc, Hu. reflexivity.
Qed.

(** X24: [_update_costs] never leaves a failure half done: whenever it
    raises, the cost manager, the configuration and the log are as before,
    and what it raises is the [NameError] of the handler, not the failure
    that the handler caught. *)
Theorem X24_update_costs_failure (usage : gmap string Z) (w w' : World) (e : exn) :
  _update_costs usage w = (Raise e, w') → w' = w ∧ e = logger_undefined.
Proof.
  rewrite update_costs_run.
  destruct (LLMConfig.calc_usage (config w)); [|discriminate].
  destruct (cost_manager w) as [cm|]; [|by intros [= <- <-]].
  destruct (usage !! "prompt_tokens") as [p|]; [|by intros [= <- <-]].
  destruct (usage !! "completion_tokens") as [c|]; [|by intros [= <- <-]].
  destruct (update_cost cm p c (LLMConfig.model (config w))) as [cm'|e'];
    [discriminate | by intros [= <- <-]].
Qed.

End SydneyMore.

(** ** The further properties on concrete inputs *)

Section CopilotExamples.
Import GitHubCopilotLLM CopilotSpec Trace.

(** X1 on a configuration with the bare model "gpt-4o". *)
Lemma X1_constructed_invariant_witness :
  let w := Demo.world (Demo.cfg (Some "gpt-4o")) in
  let w' := constructed w (LLMConfig.set_model (Some "github_copilot/gpt-4o") (config w)) in
  ∃ id,
    model Demo.self = Some id
    ∧ LLMConfig.model (config w') = Some id
    ∧ startswith id "github_copilot/" = true
    ∧ replace id "github_copilot/" "" ∈ supported_models
    ∧ (LLMConfig.model (config w) ≠ Some id →
       _normalize_model_name id ∈ supported_models)
    ∧ cost_manager Demo.self = None
    ∧ litellm_set_verbose w' = false
    ∧ log w' = log w.
Proof.
  intros w w'.
  exact (X1_constructed_invariant (H := Demo.streaming []) w w' Demo.self eq_refl).
Defined.

(** X2 on the model "not-a-model", and without LiteLLM. *)
Lemma X2_failed_construction_writes_nothing_witness :
  let w := Demo.world (Demo.cfg (Some "not-a-model")) in
  (w = w
   ∧ ((LITELLM_AVAILABLE (Collaborators := Demo.streaming []) = false
       ∧ ∃ msg, unsupported "not-a-model" = ImportError msg)
      ∨ (LITELLM_AVAILABLE (Collaborators := Demo.streaming []) = true
         ∧ ∃ name, unsupported "not-a-model" = unsupported name
                   ∧ name ∉ supported_models)))
  ∧ ∃ msg, __init__ (H := Cases.client false (Raise Cases.timed_out)) w
           = (Raise (ImportError msg), w).
Proof.
  intros w. split.
  - exact (proj1 (X2_failed_construction_writes_nothing (H := Demo.streaming []) w)
             (unsupported "not-a-model") w eq_refl).
  - exact (proj2 (X2_failed_construction_writes_nothing
                    (H := Cases.client false (Raise Cases.timed_out)) w) eq_refl).
Defined.

(** X3 on a configuration with the bare model "gpt-4o". *)
Lemma X3_construction_idempotent_witness :
  let w := Demo.world (Demo.cfg (Some "gpt-4o")) in
  let w' := constructed w (LLMConfig.set_model (Some "github_copilot/gpt-4o") (config w)) in
  __init__ (H := Demo.streaming []) w' = (Return Demo.self, w').
Proof.
  intros w w'.
  exact (X3_construction_idempotent (H := Demo.streaming []) w w' Demo.self eq_refl).
Defined.

(** X4 on the model "gpt-5". *)
Lemma X4_prefix_round_trip_witness :
  let w := Demo.world (Demo.cfg (Some "gpt-5")) in
  ∃ self w',
    __init__ (H := Demo.streaming []) w = (Return self, w')
    ∧ model self = Some ("github_copilot/" +:+ "gpt-5")
    ∧ _normalize_model_name <$> pricing_plan self = Some "gpt-5".
Proof.
  intros w.
  apply (X4_prefix_round_trip (H := Demo.streaming []) w "gpt-5" eq_refl eq_refl).
  - apply (bool_decide_unpack _). exact I.
  - reflexivity.
Defined.

(** X5 on a configuration with the pricing plan "gpt-4o" and the model
    "gpt-5". *)
Lemma X5_pricing_plan_override_witness :
  let w := Demo.world Cases.tuned in
  let self := {| model := Some "github_copilot/gpt-5";
                 pricing_plan := Some "gpt-4o";
                 cost_manager := None |} in
  let w' := constructed w (LLMConfig.set_model (Some "github_copilot/gpt-5") (config w)) in
  pricing_plan self = Some "gpt-4o"
  ∧ LLMConfig.pricing_plan (config w') = Some "gpt-4o".
Proof.
  intros w self w'.
  exact (X5_pricing_plan_override (H := Demo.streaming []) w w' self "gpt-4o"
           eq_refl eq_refl eq_refl).
Defined.

(** X6 on a configuration with a proxy. *)
Lemma X6_proxy_setting_witness :
  let w := Demo.world Cases.tuned in
  let self := {| model := Some "github_copilot/gpt-5";
                 pricing_plan := Some "gpt-4o";
                 cost_manager := None |} in
  let w' := constructed w (LLMConfig.set_model (Some "github_copilot/gpt-5") (config w)) in
  litellm_proxy w' =
    if truthy (LLMConfig.proxy (config w)) then LLMConfig.proxy (config w)
    else litellm_proxy w.
Proof.
  intros w self w'.
  exact (X6_proxy_setting (H := Demo.streaming []) w w' self eq_refl).
Defined.

(** X7 on a configuration with every optional field set: "stop" is a key of
    the payload, and a key the payload may have. *)
Lemma X7_payload_fields_witness :
  "stop" ∈ payload_keys.
Proof.
  apply (proj2 (proj2 (proj2 (proj2 (proj2
           (X7_payload_fields (H := Demo.streaming []) Demo.self Cases.tuned
              Demo.hi 0)))))).
  exists (PStrs ["END"]). reflexivity.
Defined.

(** X8 on the key "model". *)
Lemma X8_streaming_request_witness :
  let w := Demo.world Cases.tuned in
  stream_kwargs (H := Demo.streaming []) Demo.self w Demo.hi 0 !! "model"
  = completion_kwargs (H := Demo.streaming []) Demo.self w Demo.hi 0 !! "model".
Proof.
  intros w.
  apply (proj2 (proj2 (X8_streaming_request (H := Demo.streaming []) Demo.self w
                         Demo.hi 0))).
  discriminate.
Defined.

(** X9 on a response with two choices. *)
Lemma X9_completion_text_witness :
  let E := Cases.client true (Return (Completion Cases.hello_world)) in
  let w := Demo.world (Demo.cfg (Some "github_copilot/gpt-4o")) in
  let kwargs :=
    completion_kwargs (H := E) Demo.self w Demo.hi (get_timeout (config w) 0) in
  acompletion_text (H := E) Demo.self Demo.hi false 0 w
  = (Return (get_choice_text Cases.hello_world),
     logged w [Acompletion kwargs; UpdateCosts (usage Cases.hello_world)])
  ∧ get_choice_text Cases.hello_world = "Hello, world!".
Proof.
  intros E w kwargs.
  exact (X9_completion_text (H := E) Demo.self Demo.hi 0 w Cases.hello_world eq_refl).
Defined.

(** X10 on a client that times out, and on a request that is cancelled. *)
Lemma X10_completion_failure_witness :
  let E1 := Cases.client true (Raise Cases.timed_out) in
  let E2 := Cases.client true (Interrupted (CancelledError "cancelled by the caller")) in
  let w := Demo.world (Demo.cfg (Some "github_copilot/gpt-4o")) in
  _achat_completion (H := E1) Demo.self Demo.hi 0 w
  = (Raise Cases.timed_out,
     logged w [Acompletion (completion_kwargs (H := E1) Demo.self w Demo.hi 0);
               LoggerError ("GitHub Copilot API error: " +:+ str Cases.timed_out)])
  ∧ _achat_completion (H := E2) Demo.self Demo.hi 0 w
    = (Interrupted (CancelledError "cancelled by the caller"),
       logged w [Acompletion (completion_kwargs (H := E2) Demo.self w Demo.hi 0)]).
Proof.
  intros E1 E2 w. split.
  - exact (proj1 (X10_completion_failure (H := E1) Demo.self Demo.hi 0 w)
             Cases.timed_out eq_refl).
  - exact (proj2 (X10_completion_failure (H := E2) Demo.self Demo.hi 0 w)
             (CancelledError "cancelled by the caller") eq_refl).
Defined.

(** X11 on a client that times out at once, on one that does after "Hel"
    and "lo", on a call cancelled after them, and on a stream whose second
    chunk has a choice with [None] for its delta. *)
Lemma X11_stream_breaks_witness :
  let w := Demo.world (Demo.cfg (Some "github_copilot/gpt-4o")) in
  let E1 := Cases.client true (Raise Cases.timed_out) in
  let E2 :=
    Cases.client true (Return (Stream Demo.hello (Some (Exception Cases.timed_out)))) in
  let E3 :=
    Cases.client true
      (Return (Stream Demo.hello
                 (Some (BaseException (CancelledError "cancelled by the caller"))))) in
  let E4 :=
    Cases.client true
      (Return (Stream ([Demo.text_chunk "Hel"] ++ Cases.broken_chunk
                         :: [Demo.text_chunk "lo"]) None)) in
  fst (_achat_completion_stream (H := E1) Demo.self Demo.hi 0 w) = Raise Cases.timed_out
  ∧ _achat_completion_stream (H := E2) Demo.self Demo.hi 0 w
    = (Raise Cases.timed_out,
       logged w (Acompletion (stream_kwargs (H := E2) Demo.self w Demo.hi 0)
                   :: (LogLLMStream <$> fragments Demo.hello)
                   ++ [LoggerError ("GitHub Copilot streaming error: "
                                    +:+ str Cases.timed_out)]))
  ∧ _achat_completion_stream (H := E3) Demo.self Demo.hi 0 w
    = (Interrupted (CancelledError "cancelled by the caller"),
       logged w (Acompletion (stream_kwargs (H := E3) Demo.self w Demo.hi 0)
                   :: (LogLLMStream <$> fragments Demo.hello)))
  ∧ _achat_completion_stream (H := E4) Demo.self Demo.hi 0 w
    = (Raise delta_is_none,
       logged w (Acompletion (stream_kwargs (H := E4) Demo.self w Demo.hi 0)
                   :: (LogLLMStream <$> ["Hel"])
                   ++ [LoggerError ("GitHub Copilot streaming error: "
                                    +:+ str delta_is_none)])).
Proof.
  intros w E1 E2 E3 E4. split; [|split; [|split]].
  - rewrite (proj1 (X11_stream_breaks (H := E1) Demo.self Demo.hi 0 w)
               Cases.timed_out eq_refl).
    reflexivity.
  - apply (proj1 (proj2 (proj2 (X11_stream_breaks (H := E2) Demo.self Demo.hi 0 w)))
             Demo.hello Cases.timed_out eq_refl).
    repeat constructor.
  - apply (proj1 (proj2 (proj2 (proj2
             (X11_stream_breaks (H := E3) Demo.self Demo.hi 0 w))))
             Demo.hello (CancelledError "cancelled by the caller") eq_refl).
    repeat constructor.
  - apply (proj2 (proj2 (proj2 (proj2
             (X11_stream_breaks (H := E4) Demo.self Demo.hi 0 w))))
             [Demo.text_chunk "Hel"] Cases.broken_chunk [Demo.text_chunk "lo"] None
             eq_refl).
    + repeat constructor.
    + reflexivity.
Defined.

(** X14 on the stream "Hel", "lo". *)
Lemma X14_text_is_what_was_streamed_witness :
  let E := Demo.streaming Demo.hello in
  let w := Demo.world (Demo.cfg (Some "github_copilot/gpt-4o")) in
  let w' := snd (_achat_completion_stream (H := E) Demo.self Demo.hi 0 w) in
  ∃ pieces,
    sink (log w') = sink (log w) ++ pieces ++ [newline]
    ∧ "Hello" = join "" pieces
    ∧ Forall (λ s, s ≠ "") pieces.
Proof.
  intros E w w'.
  exact (X14_text_is_what_was_streamed (H := E) Demo.self Demo.hi 0 w w' "Hello"
           eq_refl).
Defined.

(** X15 on the stream "Hel", "lo". *)
Lemma X15_stream_text_witness :
  let E := Demo.streaming Demo.hello in
  let w := Demo.world (Demo.cfg (Some "github_copilot/gpt-4o")) in
  fst (_achat_completion_stream (H := E) Demo.self Demo.hi 0 w)
  = Return (join "" (fragments Demo.hello)).
Proof.
  intros E w.
  apply (X15_stream_text (H := E) Demo.self Demo.hi 0 w Demo.hello eq_refl).
  repeat constructor.
Defined.

(** X16 on the stream "Hel", "lo" and a last chunk with a choice and the
    usage. *)
Lemma X16_stream_usage_witness :
  let last_chunk :=
    {| chunk_choices := Some [ {| choice_delta := Has {| delta_content := None |} |} ];
       chunk_usage := Some Demo.usage_5_2 |} in
  let chunks := Demo.hello ++ [last_chunk] in
  let E := Demo.streaming chunks in
  let w := Demo.world (Demo.cfg (Some "github_copilot/gpt-4o")) in
  _achat_completion_stream (H := E) Demo.self Demo.hi 0 w
  = (Return (join "" (fragments chunks)),
     logged (drained (H := E) Demo.self w Demo.hi 0 chunks)
       [UpdateCosts (Some Demo.usage_5_2)]).
Proof.
  intros last_chunk chunks E w.
  apply (X16_stream_usage (H := E) Demo.self Demo.hi 0 w chunks Demo.usage_5_2 eq_refl).
  - repeat constructor.
  - repeat constructor.
  - reflexivity.
Defined.

(** X17 on a configuration with usage calculation on and the pricing plan
    "github_copilot/gpt-4o". *)
Lemma X17_local_usage_key_witness :
  let E := Demo.streaming [] in
  let w := Demo.world (Demo.cfg (Some "github_copilot/gpt-4o")) in
  _calc_usage (H := E) Demo.self Demo.hi "Hello" w
  = (Return {| prompt_tokens := 3; completion_tokens := 5; total_tokens := 3 + 5 |}, w).
Proof.
  intros E w.
  exact (proj2 (X17_local_usage_key (H := E) Demo.self Demo.hi "Hello" w)
           "gpt-4o" 3 5 eq_refl eq_refl eq_refl eq_refl).
Defined.

(** X25 on the timeout rule of the examples. *)
Lemma X25_entry_points_agree_witness :
  let E := Cases.client true (Return (Completion Cases.hello_world)) in
  let w := Demo.world (Demo.cfg (Some "github_copilot/gpt-4o")) in
  acompletion_ (H := E) Demo.self Demo.hi 0 w
  = _achat_completion (H := E) Demo.self Demo.hi 0 w.
Proof.
  intros E w.
  apply (X25_entry_points_agree (H := E) Demo.self Demo.hi 0 w).
  intros c t. cbn. destruct (Z.eqb t 0) eqn:Ht; [|by rewrite Ht].
  destruct (Z.eqb (LLMConfig.timeout c) 0) eqn:Hc; [|reflexivity].
  by apply Z.eqb_eq in Hc.
Defined.

End CopilotExamples.

Section SydneyExamples.
Import GitHubLLM SessionSpec Trace.

(** X18 on the tokens "Hello", ", ", "world". *)
Lemma X18_sydney_stream_text_witness :
  let w := Demo.github_world (Demo.cfg (Some "gpt-4.1")) in
  acompletion_text (H := Demo.sydney) (Cases.conversation ++ [Message "user" "Hi"])
    true 600 w
  = (Return (join "" ["Hello"; ", "; "world"]),
     logged w [SessionEnter None; AskStream "Hi"; SessionExit]).
Proof.
  intros w.
  exact (X18_sydney_stream_text (H := Demo.sydney) Cases.conversation
           (Message "user" "Hi") 600 w ["Hello"; ", "; "world"] eq_refl eq_refl).
Defined.

(** X19 on a two-message conversation, non-streaming. *)
Lemma X19_session_released_witness :
  let E := Cases.sydney (Return ()) (Raise (UpstreamError "throttled")) ([], None) in
  let w := Cases.github_world (Demo.cfg (Some "gpt-4.1")) None in
  let w' := snd (acompletion_text (H := E) Cases.conversation false 600 w) in
  ∃ inside,
    log w' = log w ++ SessionEnter (Some "cookie") :: inside ++ [SessionExit]
    ∧ prompts inside = content <$> option_list (last Cases.conversation)
    ∧ prompts (log w') = prompts (log w) ++ prompts inside.
Proof.
  intros E w w'.
  exact (X19_session_released (H := E) Cases.conversation false 600 w eq_refl).
Defined.

(** X20 on a client whose session cannot be entered. *)
Lemma X20_session_not_entered_witness :
  let e := UpstreamError "invalid cookies" in
  let E := Cases.sydney (Raise e) (Return ("never", PNone)) (["never"], None) in
  let w := Cases.github_world (Demo.cfg (Some "gpt-4.1")) None in
  acompletion_text (H := E) Cases.conversation true 600 w
  = (Raise e, logged w [SessionEnter (Some "cookie")]).
Proof.
  intros e E w.
  exact (X20_session_not_entered (H := E) Cases.conversation true 600 w e eq_refl).
Defined.

(** X21 in streaming mode. *)
Lemma X21_sydney_empty_messages_witness :
  let w := Demo.github_world (Demo.cfg (Some "gpt-4.1")) in
  acompletion_text (H := Demo.sydney) [] true 600 w
  = (Raise (IndexError "list index out of range"),
     logged w [SessionEnter None; SessionExit]).
Proof.
  intros w.
  exact (X21_sydney_empty_messages (H := Demo.sydney) true 600 w eq_refl).
Defined.

(** X22 on a token stream that breaks after two tokens. *)
Lemma X22_sydney_failure_witness :
  let e := UpstreamError "connection reset" in
  let E := Cases.sydney (Return ()) (Raise e) (["Hel"; "lo"], Some e) in
  let w := Cases.github_world (Demo.cfg (Some "gpt-4.1")) None in
  acompletion_text (H := E) ([] ++ [Message "user" "Hi"]) true 600 w
  = (Raise e, logged w [SessionEnter (Some "cookie"); AskStream "Hi"; SessionExit])
  ∧ acompletion_text (H := E) ([] ++ [Message "user" "Hi"]) false 600 w
    = (Raise e, logged w [SessionEnter (Some "cookie"); Ask "Hi"; SessionExit]).
Proof.
  intros e E w. split.
  - exact (proj1 (X22_sydney_failure (H := E) [] (Message "user" "Hi") 600 w e eq_refl)
             ["Hel"; "lo"] eq_refl).
  - exact (proj2 (X22_sydney_failure (H := E) [] (Message "user" "Hi") 600 w e eq_refl)
             eq_refl).
Defined.

(** X23 on a cost manager that holds 10 and 20 tokens. *)
Lemma X23_update_costs_witness :
  let w := Cases.github_world (Demo.cfg (Some "gpt-4.1")) (Some Cases.fresh_manager) in
  _update_costs (H := Demo.sydney) Demo.usage_dict w
  = (Return (),
     {| config := config w;
        cost_manager := Some {| total_prompt_tokens := 10 + 5;
                                total_completion_tokens := 20 + 2 |};
        log := log w |}).
Proof.
  intros w.
  exact (proj2 (X23_update_costs (H := Demo.sydney) Demo.usage_dict w)
           Cases.fresh_manager _ 5 2 eq_refl eq_refl eq_refl eq_refl eq_refl).
Defined.

(** X24 on a usage without the completion count. *)
Lemma X24_update_costs_failure_witness :
  let w := Cases.github_world (Demo.cfg (Some "gpt-4.1")) (Some Cases.fresh_manager) in
  w = w ∧ logger_undefined = logger_undefined.
Proof.
  intros w.
  exact (X24_update_costs_failure (H := Demo.sydney) (<["prompt_tokens" := 5]> ∅)
           w w logger_undefined eq_refl).
Defined.

End SydneyExamples.
